(** * ifc_observer: the document observer of NativeIFC

    A shallow embedding of [src/ifc_observer.py].  The observer is glue
    code: every slot probes attributes of host entities ([hasattr],
    [getattr] with a default, membership in [PropertiesList]) and then calls
    a collaborator or arms a timer.  The embedding keeps exactly that:

    - host values are a small universe [PyVal] with Python truthiness;
    - a document object and a document are records holding their property
      table (a finite map from property names to values), their [Proxy]
      and their [ViewObject];
    - the observer instance [self], the documents registered with the
      host, the GUI flag, the parameter store and the trace of outgoing
      calls form the [World];
    - a slot is a computation in a state-and-exception monad; a Python
      exception that escapes the slot is the [inl] outcome. *)

From Stdlib Require Import ZArith List String Bool Lia.
From stdpp Require Import base option list gmap strings fin_maps.

Open Scope string_scope.
Open Scope list_scope.
Open Scope Z_scope.

(** ** Host values *)

(** An [ifcopenshell] file handle; [schema_name] is what
    [ifcfile.wrapped_data.schema_name()] answers. *)
Record IfcFile := mkIfcFile { file_id : nat; schema_name : string }.

Inductive PyVal :=
| PyNone
| PyBool (b : bool)
| PyInt (z : Z)
| PyStr (s : string)
| PyFile (f : IfcFile)
| PyObj (n : nat).          (* any other host object, e.g. a scene-graph node *)

(** Python truth value testing. *)
Definition truthy (v : PyVal) : bool :=
  match v with
  | PyNone => false
  | PyBool b => b
  | PyInt z => negb (z =? 0)
  | PyStr s => negb (String.eqb s "")
  | PyFile _ => true
  | PyObj _ => true
  end.

Definition int_of_bool (b : bool) : Z := if b then 1 else 0.

Definition IfcFile_eqb (f g : IfcFile) : bool :=
  Nat.eqb (file_id f) (file_id g) && String.eqb (schema_name f) (schema_name g).

(** Python [==] on the values above ([bool] is a subclass of [int]). *)
Definition py_eq (a b : PyVal) : bool :=
  match a, b with
  | PyNone, PyNone => true
  | PyBool x, PyBool y => Bool.eqb x y
  | PyInt x, PyInt y => x =? y
  | PyBool x, PyInt y => int_of_bool x =? y
  | PyInt x, PyBool y => x =? int_of_bool y
  | PyStr x, PyStr y => String.eqb x y
  | PyFile x, PyFile y => IfcFile_eqb x y
  | PyObj x, PyObj y => Nat.eqb x y
  | _, _ => false
  end.

(** A plain Python object (a proxy): its instance dictionary. *)
Abbreviation PyDict := (gmap string PyVal).

(** [getattr(o, name, default)] on an instance dictionary. *)
Definition getattr (d : PyDict) (name : string) (default : PyVal) : PyVal :=
  match d !! name with Some v => v | None => default end.

Definition hasattr (d : PyDict) (name : string) : bool :=
  match d !! name with Some _ => true | None => false end.

(** The value of a [Proxy] attribute: Python's [None] or an object. *)
Inductive PyProxy :=
| NoneProxy
| ProxyObj (dict : PyDict).

(** The attributes that can be read off a proxy; [None] has none of ours. *)
Definition proxy_dict (p : PyProxy) : PyDict :=
  match p with NoneProxy => ∅ | ProxyObj d => d end.

(** [p.<name> = v]; [None] when [p] is Python's [None] (the assignment
    raises). *)
Definition proxy_setattr (name : string) (v : PyVal) (p : PyProxy) : option PyProxy :=
  match p with
  | NoneProxy => None
  | ProxyObj d => Some (ProxyObj (<[name := v]> d))
  end.

(** The view provider of an object; [None]: it has no [Proxy] attribute. *)
Record ViewProvider := mkViewProvider { vp_Proxy : option PyProxy }.

(** ** Document objects and documents *)

Module Obj.
Record t := mk {
  Name : string;
  Label : string;
  (* [TypeId] followed by the types it derives from *)
  TypeIds : list string;
  (* the properties of the object, by name *)
  Properties : PyDict;
  (* [None]: the object has no [Proxy] attribute *)
  Proxy : option PyProxy;
  (* [None]: [obj.ViewObject] is Python's [None] (no GUI) *)
  ViewObject : option ViewProvider;
  (* name of the owning document, if any *)
  Document : option string
}.

Definition PropertiesList (o : t) : list string := (map_to_list (Properties o)).*1.

Definition isDerivedFrom (o : t) (ty : string) : bool :=
  existsb (String.eqb ty) (TypeIds o).

(** [obj.<name> = v] on a property. *)
Definition setattr (name : string) (v : PyVal) (o : t) : t :=
  mk (Name o) (Label o) (TypeIds o) (<[name := v]> (Properties o))
     (Proxy o) (ViewObject o) (Document o).

Definition set_Proxy (p : PyProxy) (o : t) : t :=
  mk (Name o) (Label o) (TypeIds o) (Properties o) (Some p)
     (ViewObject o) (Document o).
End Obj.

Module Doc.
Record t := mk {
  Name : string;
  Properties : PyDict;
  Proxy : option PyProxy;
  (* [None]: the document has no [ViewObject] attribute *)
  ViewObject : option ViewProvider;
  Objects : list Obj.t
}.

Definition PropertiesList (d : t) : list string := (map_to_list (Properties d)).*1.

Definition set_Objects (objs : list Obj.t) (d : t) : t :=
  mk (Name d) (Properties d) (Proxy d) (ViewObject d) objs.

Definition set_Proxy (p : PyProxy) (d : t) : t :=
  mk (Name d) (Properties d) (Some p) (ViewObject d) (Objects d).

(** [doc.findObjects(Type=ty)] *)
Definition findObjects (ty : string) (d : t) : list Obj.t :=
  List.filter (fun o => Obj.isDerivedFrom o ty) (Objects d).

(** [doc.getObject(name)]: the object of that name, or [None]. *)
Definition getObject (name : string) (d : t) : option Obj.t :=
  List.find (fun o => String.eqb (Obj.Name o) name) (Objects d).
End Doc.

(** [name in x.PropertiesList] *)
Definition in_list (name : string) (l : list string) : bool :=
  existsb (String.eqb name) l.

(** ** Outgoing calls *)

(** What a timer is armed with. *)
Inductive Callback :=
| cb_save                       (* self.save *)
| cb_convert                    (* self.convert *)
| cb_fit_all                    (* self.fit_all *)
| cb_touch (obj : string)       (* obj.touch *)
| cb_recompute (doc : string).  (* doc.recompute *)

(** Calls that leave the observer, oldest first in the trace. *)
Inductive Call :=
| singleShot (msec : Z) (cb : Callback)
| remove_ifc_element (obj : string)
| migrate_schema (f : IfcFile) (schema : PyVal)
| create_ghost (doc : string)
| SendMsgToActiveView (msg : string)
| loadUi (uifile : string)
| exec_
| vp_save (owner : string)
| vp_save_as (owner : string)
| print (what : string) (label : string)
| aggregate (obj : string) (doc : string)
| add_geom_properties (obj : string)
| recompute (doc : string).

(** ** The world around the observer *)

(** The observer instance: [self.docname] and [self.objname]; [None] when
    the attribute does not exist. *)
Record Observer := mkObserver {
  docname : option string;
  objname : option string
}.

(** What the user does with the export dialog when it is shown. *)
Record Dialog := mkDialog {
  dlg_result : bool;           (* dlg.exec_() *)
  dlg_isChecked : bool         (* dlg.checkAskBeforeSaving.isChecked() *)
}.

Record World := mkWorld {
  self : Observer;
  listDocuments : gmap string Doc.t;   (* FreeCAD.listDocuments() *)
  GuiUp : bool;                        (* FreeCAD.GuiUp *)
  params : gmap string bool;           (* the NativeIFC parameter group *)
  dialog : Dialog;
  calls : list Call
}.

Definition set_self (o : Observer) (w : World) : World :=
  mkWorld o (listDocuments w) (GuiUp w) (params w) (dialog w) (calls w).

Definition set_params (p : gmap string bool) (w : World) : World :=
  mkWorld (self w) (listDocuments w) (GuiUp w) p (dialog w) (calls w).

Definition add_call (c : Call) (w : World) : World :=
  mkWorld (self w) (listDocuments w) (GuiUp w) (params w) (dialog w) (calls w ++ [c]).

(** ** The monad of slots *)

Inductive Exn := AttributeError (name : string).

Definition M (S A : Type) : Type := S -> S * (Exn + A).

Definition ret {S A} (a : A) : M S A := fun s => (s, inr a).

Definition bind {S A B} (m : M S A) (k : A -> M S B) : M S B :=
  fun s => match m s with
           | (s', inr a) => k a s'
           | (s', inl e) => (s', inl e)
           end.

Definition raise {S A} (e : Exn) : M S A := fun s => (s, inl e).

Definition gets {S A} (f : S -> A) : M S A := fun s => (s, inr (f s)).

Definition modify {S} (f : S -> S) : M S unit := fun s => (f s, inr tt).

Declare Scope slot_scope.
Delimit Scope slot_scope with slot.
Notation "'let*' x := m 'in' k" := (bind m (fun x => k))
  (at level 10, x name, m at level 100, k at level 200) : slot_scope.
Notation "m ;;; k" := (bind m (fun _ => k))
  (at level 100, k at level 200, right associativity) : slot_scope.
Open Scope slot_scope.

(** [for x in xs: body x] *)
Fixpoint for_ {S A} (xs : list A) (body : A -> M S unit) : M S unit :=
  match xs with
  | [] => ret tt
  | x :: xs' => body x ;;; for_ xs' body
  end.

(** A slot that receives a document works on that document and on the
    world; both are its state. *)
Abbreviation DocWorld := (Doc.t * World)%type.

Definition call (c : Call) : M World unit := modify (add_call c).

Definition call_d (c : Call) : M DocWorld unit :=
  modify (fun '(d, w) => (d, add_call c w)).

Definition get_doc : M DocWorld Doc.t := gets fst.

Definition modify_doc (f : Doc.t -> Doc.t) : M DocWorld unit :=
  modify (fun '(d, w) => (f d, w)).

Section Observer.

(** The collaborators ([ifc_tools], [ifc_generator]) are not part of this
    file; what they answer is a parameter of the development. *)
Variable get_project : Obj.t -> PyVal.
Variable get_ifcfile : Doc.t -> option IfcFile.
Variable migrate_schema_result : IfcFile -> PyVal -> IfcFile * list (Z * Z).
Variable create_ghost_effect : Doc.t -> Doc.t.

(** [x.<name>] on a property table: the value, or [AttributeError]. *)
Definition attr {S} (d : PyDict) (name : string) : M S PyVal :=
  match d !! name with
  | Some v => ret v
  | None => raise (AttributeError name)
  end.

(** *** slotStartSaveDocument *)

Definition slotStartSaveDocument (doc : Doc.t) (value : PyVal) : M World unit :=
  modify (fun w => set_self (mkObserver (Some (Doc.Name doc)) (objname (self w))) w) ;;;
  call (singleShot 100 cb_save).

(** *** slotDeletedObject *)

Definition slotDeletedObject (obj : Obj.t) : M World unit :=
  let proj := get_project obj in
  if negb (truthy proj) then ret tt else
  match Obj.Proxy obj with
  | None => ret tt
  | Some proxy =>
      if truthy (getattr (proxy_dict proxy) "nodelete" (PyBool false)) then ret tt
      else call (remove_ifc_element (Obj.Name obj))
  end.

(** *** slotChangedDocument *)

(** [[o for o in doc.Objects if getattr(o, "StepId", None) == old_id]]:
    the selected objects are references into [doc.Objects]; they are kept
    as positions in that list, counted from [i]. *)
Fixpoint child_from (i : nat) (old_id : Z) (objs : list Obj.t) : list nat :=
  match objs with
  | [] => []
  | o :: objs' =>
      if py_eq (getattr (Obj.Properties o) "StepId" PyNone) (PyInt old_id)
      then i :: child_from (S i) old_id objs'
      else child_from (S i) old_id objs'
  end.

(** The body of the loop over [migration_table.items()]. *)
Definition migrate_child (objs : list Obj.t) (item : Z * Z) : list Obj.t :=
  let '(old_id, new_id) := item in
  let child := child_from 0 old_id objs in
  if Nat.eqb (length child) 1 then
    match child with
    | c0 :: _ => alter (Obj.setattr "StepId" (PyInt new_id)) c0 objs
    | [] => objs
    end
  else objs.

Definition slotChangedDocument (prop : string) : M DocWorld unit :=
  let* doc := get_doc in
  if String.eqb prop "Schema" && in_list "IfcFilePath" (Doc.PropertiesList doc) then
    let* schema := attr (Doc.Properties doc) "Schema" in
    match get_ifcfile doc with
    | None => ret tt
    | Some ifcfile =>
        if negb (py_eq schema (PyStr (schema_name ifcfile))) then
          call_d (migrate_schema ifcfile schema) ;;;
          let '(ifcfile', migration_table) := migrate_schema_result ifcfile schema in
          match Doc.Proxy doc ≫= proxy_setattr "ifcfile" (PyFile ifcfile') with
          | None => raise (AttributeError "Proxy")
          | Some proxy' =>
              modify_doc (Doc.set_Proxy proxy') ;;;
              for_ migration_table (fun item =>
                modify_doc (fun d => Doc.set_Objects (migrate_child (Doc.Objects d) item) d))
          end
        else ret tt
    end
  else ret tt.

(** *** slotCreatedObject *)

(** [getattr(obj, "Document", None)]: the owning document is a reference
    to a document of the host. *)
Definition obj_Document (w : World) (obj : Obj.t) : option Doc.t :=
  Obj.Document obj ≫= fun n => listDocuments w !! n.

Definition slotCreatedObject (obj : Obj.t) : M World unit :=
  let* doc := gets (fun w => obj_Document w obj) in
  match doc with
  | None => ret tt
  | Some doc =>
      if hasattr (Doc.Properties doc) "IfcFilePath" then
        modify (fun w => set_self (mkObserver (docname (self w)) (Some (Obj.Name obj))) w) ;;;
        modify (fun w => set_self (mkObserver (Some (Doc.Name doc)) (objname (self w))) w) ;;;
        call (singleShot 100 cb_convert)
      else ret tt
  end.

(** *** slotActivateDocument *)

(** The body of [for obj in doc.Objects], at position [i] of the list. *)
Definition activate_object (i : nat) : M DocWorld unit :=
  let* doc := get_doc in
  match Doc.Objects doc !! i with
  | None => ret tt
  | Some obj =>
      if py_eq (getattr (Obj.Properties obj) "ShapeMode" PyNone) (PyStr "Coin") then
        match Obj.Proxy obj ≫= proxy_setattr "cached" (PyBool true) with
        | None => raise (AttributeError "Proxy")
        | Some proxy' =>
            modify_doc (fun d =>
              Doc.set_Objects (alter (Obj.set_Proxy proxy') i (Doc.Objects d)) d) ;;;
            call_d (singleShot 100 (cb_touch (Obj.Name obj)))
        end
      else ret tt
  end.

Definition slotActivateDocument : M DocWorld unit :=
  let* doc := get_doc in
  match Doc.Proxy doc with
  | None => ret tt
  | Some proxy =>
      if hasattr (proxy_dict proxy) "ifcfile" then
        match Doc.Objects doc with
        | _ :: _ =>
            for_ (seq 0 (length (Doc.Objects doc))) activate_object ;;;
            call_d (singleShot 100 (cb_recompute (Doc.Name doc))) ;;;
            call_d (singleShot 100 cb_fit_all)
        | [] =>
            if negb (hasattr (proxy_dict proxy) "ghost") then
              call_d (create_ghost (Doc.Name doc)) ;;;
              modify_doc create_ghost_effect
            else ret tt
        end
      else ret tt
  end.

(** *** fit_all *)

Definition fit_all : M World unit :=
  let* gui := gets GuiUp in
  if gui then call (SendMsgToActiveView "ViewFit") else ret tt.

(** *** save *)

(** What [objs] holds: the document itself or one of its objects. *)
Inductive Candidate :=
| CDoc (d : Doc.t)
| CObj (o : Obj.t).

Definition cand_Name (c : Candidate) : string :=
  match c with CDoc d => Doc.Name d | CObj o => Obj.Name o end.

Definition cand_Properties (c : Candidate) : PyDict :=
  match c with CDoc d => Doc.Properties d | CObj o => Obj.Properties o end.

Definition cand_Proxy (c : Candidate) : option PyProxy :=
  match c with CDoc d => Doc.Proxy d | CObj o => Obj.Proxy o end.

Definition cand_ViewObject (c : Candidate) : option ViewProvider :=
  match c with CDoc d => Doc.ViewObject d | CObj o => Obj.ViewObject o end.

(** The first half of [save]: filling [objs]. *)
Definition save_candidates (doc : Doc.t) : list Candidate :=
  let objs := [] in
  if hasattr (Doc.Properties doc) "IfcFilePath" && hasattr (Doc.Properties doc) "Modified" then
    if truthy (getattr (Doc.Properties doc) "Modified" PyNone)
    then objs ++ [CDoc doc]
    else objs
  else
    fold_left
      (fun objs obj =>
         if hasattr (Obj.Properties obj) "IfcFilePath" && hasattr (Obj.Properties obj) "Modified" then
           if truthy (getattr (Obj.Properties obj) "Modified" PyNone)
           then objs ++ [CObj obj]
           else objs
         else objs)
      (Doc.findObjects "Part::FeaturePython" doc) objs.

(** [params.GetBool(key, default)] *)
Definition GetBool (p : gmap string bool) (key : string) (default : bool) : bool :=
  match p !! key with Some b => b | None => default end.

(** [obj.ViewObject.Proxy.<name>()]: the view proxy of NativeIFC has both
    [save] and [save_as]; reaching it needs a view object and its proxy.
    The attribute that cannot be read is the one the exception names. *)
Definition view_proxy_call (obj : Candidate) (name : string) (method : string -> Call)
  : M World unit :=
  match cand_ViewObject obj with
  | None =>
      raise (AttributeError (match obj with CDoc _ => "ViewObject" | CObj _ => "Proxy" end))
  | Some vobj =>
      match vp_Proxy vobj with
      | None => raise (AttributeError "Proxy")
      | Some NoneProxy => raise (AttributeError name)
      | Some (ProxyObj _) => call (method (cand_Name obj))
      end
  end.

(** The body of the loop [for obj in objs]. *)
Definition save_object (obj : Candidate) : M World unit :=
  let* path := attr (cand_Properties obj) "IfcFilePath" in
  let* has_file :=
    (if truthy path then
       match cand_Proxy obj with
       | None => raise (AttributeError "Proxy")
       | Some proxy => ret (truthy (getattr (proxy_dict proxy) "ifcfile" PyNone))
       end
     else ret false) in
  if has_file then view_proxy_call obj "save" vp_save
  else view_proxy_call obj "save_as" vp_save_as.

(** The second half of [save], from [objs = []] on, for the document
    that was found.  The dialog file is named relative to the directory of
    the module. *)
Definition save_document (doc : Doc.t) : M World unit :=
  let objs := save_candidates doc in
  match objs with
  | [] => ret tt
  | _ :: _ =>
      let* ask := gets (fun w => GetBool (params w) "AskBeforeSaving" true) in
      let* gui := gets GuiUp in
      if ask && gui then
        call (loadUi "ui/dialogExport.ui") ;;;
        call exec_ ;;;
        let* result := gets (fun w => dlg_result (dialog w)) in
        if negb result then ret tt else
        let* ask := gets (fun w => dlg_isChecked (dialog w)) in
        modify (fun w => set_params (<["AskBeforeSaving" := ask]> (params w)) w) ;;;
        for_ objs save_object
      else for_ objs save_object
  end.

(** The first half of [save]: the pending name must exist and must name a
    document of the host; it is deleted once that document is in hand. *)
Definition save : M World unit :=
  let* pending := gets (fun w => docname (self w)) in
  match pending with
  | None => ret tt
  | Some name =>
      let* docs := gets listDocuments in
      match docs !! name with
      | None => ret tt
      | Some doc =>
          modify (fun w => set_self (mkObserver None (objname (self w))) w) ;;;
          save_document doc
      end
  end.

(** *** convert *)

(** A document is never falsy, so the test [if not doc] has no branch of
    its own here.  What [aggregate], [add_geom_properties] and
    [doc.recompute] do to the document is theirs; the trace records that
    they were called, [add_geom_properties] on the object that [aggregate]
    made of [obj]. *)
Definition convert : M World unit :=
  let* pending := gets self in
  match objname pending, docname pending with
  | Some oname, Some dname =>
      let* docs := gets listDocuments in
      match docs !! dname with
      | None => ret tt
      | Some doc =>
          match Doc.getObject oname doc with
          | None => ret tt
          | Some obj =>
              if in_list "StepId" (Obj.PropertiesList obj) then ret tt else
              modify (fun w => set_self (mkObserver None (objname (self w))) w) ;;;
              modify (fun w => set_self (mkObserver (docname (self w)) None) w) ;;;
              if Obj.isDerivedFrom obj "Part::Feature" then
                if in_list "IfcType" (Obj.PropertiesList obj) then
                  call (print "Converting" (Obj.Label obj)) ;;;
                  call (aggregate (Obj.Name obj) (Doc.Name doc)) ;;;
                  call (add_geom_properties (Obj.Name obj)) ;;;
                  call (recompute (Doc.Name doc))
                else ret tt
              else ret tt
          end
      end
  | _, _ => ret tt
  end.

End Observer.

(** A fresh observer, as [add_observer] registers it: no pending names. *)
Definition ifc_observer : Observer := mkObserver None None.

(** ** Reading the trace *)

(** The calls a slot added when it took the world from [w] to [w']. *)
Definition new_calls (w w' : World) : list Call :=
  drop (length (calls w)) (calls w').

Definition is_remove_ifc_element (c : Call) : bool :=
  match c with remove_ifc_element _ => true | _ => false end.

Definition is_migrate_schema (c : Call) : bool :=
  match c with migrate_schema _ _ => true | _ => false end.

Definition is_create_ghost (c : Call) : bool :=
  match c with create_ghost _ => true | _ => false end.

Definition is_singleShot (c : Call) : bool :=
  match c with singleShot _ _ => true | _ => false end.

Definition is_view_save (c : Call) : bool :=
  match c with vp_save _ | vp_save_as _ => true | _ => false end.

(** How often the calls selected by [p] occur in a trace. *)
Definition count_calls (p : Call -> bool) (l : list Call) : nat :=
  length (List.filter p l).

(** ** Sample hosts *)

Module Samples.

Definition no_dialog : Dialog := mkDialog false false.

Definition world (o : Observer) (docs : list Doc.t) (gui : bool) : World :=
  mkWorld o (list_to_map (List.map (fun d => (Doc.Name d, d)) docs)) gui ∅ no_dialog [].

(** A plain wall, not yet converted. *)
Definition wall : Obj.t :=
  Obj.mk "Wall" "Wall" ["Part::FeaturePython"; "Part::Feature"]
         {[ "IfcType" := PyStr "IfcWall" ]} (Some (ProxyObj ∅))
         (Some (mkViewProvider (Some (ProxyObj ∅)))) (Some "Plain").

(** A document that is not backed by an IFC file. *)
Definition plain_doc : Doc.t := Doc.mk "Plain" ∅ None None [wall].

(** An element of an IFC project, with the given step id. *)
Definition element (name : string) (step_id : Z) : Obj.t :=
  Obj.mk name name ["Part::FeaturePython"; "Part::Feature"]
         {[ "StepId" := PyInt step_id ]} (Some (ProxyObj ∅))
         (Some (mkViewProvider (Some (ProxyObj ∅)))) (Some "Ifc").

Definition ifc4 : IfcFile := mkIfcFile 1 "IFC4".
Definition ifc2x3 : IfcFile := mkIfcFile 0 "IFC2X3".

(** A document that is itself the IFC project. *)
Definition ifc_doc (modified : bool) (schema : string) (objs : list Obj.t) : Doc.t :=
  Doc.mk "Ifc"
         {[ "IfcFilePath" := PyStr "/tmp/a.ifc"; "Modified" := PyBool modified;
            "Schema" := PyStr schema ]}
         (Some (ProxyObj {[ "ifcfile" := PyFile ifc2x3 ]})) None objs.

(** An IFC project object living in an ordinary document. *)
Definition project (name : string) (modified : bool) (view : option ViewProvider) : Obj.t :=
  Obj.mk name name ["Part::FeaturePython"; "Part::Feature"]
         {[ "IfcFilePath" := PyStr "/tmp/a.ifc"; "Modified" := PyBool modified ]}
         (Some (ProxyObj {[ "ifcfile" := PyFile ifc2x3 ]})) view (Some "Host").

Definition gui_view : option ViewProvider := Some (mkViewProvider (Some (ProxyObj ∅))).

Definition host_doc (objs : list Obj.t) : Doc.t := Doc.mk "Host" ∅ None None objs.

(** Collaborators of a migration from IFC2X3 to IFC4 that renumbers
    10 to 20 and 11 to 21. *)
Definition get_ifcfile : Doc.t -> option IfcFile := fun _ => Some ifc2x3.

Definition migrate_schema_result : IfcFile -> PyVal -> IfcFile * list (Z * Z) :=
  fun _ _ => (ifc4, [(10, 20); (11, 21)]).

(** A migration whose new identifiers run into the old ones: 10 becomes
    11 and 11 becomes 12; and the same table in the other order. *)
Definition chained_migration : IfcFile -> PyVal -> IfcFile * list (Z * Z) :=
  fun _ _ => (ifc4, [(10, 11); (11, 12)]).

Definition reversed_migration : IfcFile -> PyVal -> IfcFile * list (Z * Z) :=
  fun _ _ => (ifc4, [(11, 12); (10, 11)]).

Definition empty_world : World := world (mkObserver None None) [] true.

(** A ghost creator that records the ghost on the proxy of the document. *)
Definition create_ghost_effect (d : Doc.t) : Doc.t :=
  match Doc.Proxy d with
  | Some (ProxyObj dict) => Doc.set_Proxy (ProxyObj (<[ "ghost" := PyObj 0 ]> dict)) d
  | _ => d
  end.

(** The same world with the preference "ask before saving" switched off. *)
Definition quiet (w : World) : World :=
  set_params {[ "AskBeforeSaving" := false ]} w.

(** The same world with a user who accepts the dialog and ticks, or not,
    its check box. *)
Definition accepting (checked : bool) (w : World) : World :=
  mkWorld (self w) (listDocuments w) (GuiUp w) (params w) (mkDialog true checked) (calls w).

(** A feature in display mode "Coin" that has no [Proxy] attribute. *)
Definition coin_without_proxy : Obj.t :=
  Obj.mk "Shape" "Shape" ["Part::Feature"] {[ "ShapeMode" := PyStr "Coin" ]}
         None None (Some "Ifc").

(** A project that was never saved: its path is empty and it has no
    [Proxy] attribute. *)
Definition fresh : Obj.t :=
  Obj.mk "Fresh" "Fresh" ["Part::FeaturePython"]
         {[ "IfcFilePath" := PyStr ""; "Modified" := PyBool true ]}
         None gui_view (Some "Host").

(** A wall drawn in the IFC document, not yet converted. *)
Definition ifc_wall : Obj.t :=
  Obj.mk "Wall" "Wall" ["Part::FeaturePython"; "Part::Feature"]
         {[ "IfcType" := PyStr "IfcWall" ]} (Some (ProxyObj ∅)) gui_view (Some "Ifc").

(** An IFC document that holds no object yet. *)
Definition opened_doc : Doc.t := ifc_doc false "IFC2X3" [].

End Samples.

(** ** The selection of [save], in the words of the specification *)

(** An entity "is IFC-backed and marked modified": it carries the
    [IfcFilePath] attribute and the [Modified] flag, and the flag is set. *)
Definition is_modified_ifc (d : PyDict) : bool :=
  hasattr d "IfcFilePath" && hasattr d "Modified" && truthy (getattr d "Modified" PyNone).

(** The document carries both attributes, whatever the flag says. *)
Definition is_ifc_document (doc : Doc.t) : bool :=
  hasattr (Doc.Properties doc) "IfcFilePath" && hasattr (Doc.Properties doc) "Modified".

(** The modified IFC feature-objects of a document. *)
Definition modified_features (doc : Doc.t) : list Candidate :=
  List.map CObj
    (List.filter (fun o => is_modified_ifc (Obj.Properties o))
                 (Doc.findObjects "Part::FeaturePython" doc)).

(** "If the document itself is the IFC-backed entity and is marked
    modified, the document itself; otherwise every feature-object in the
    document that is IFC-backed and marked modified." *)
Definition spec_candidates (doc : Doc.t) : list Candidate :=
  if is_modified_ifc (Doc.Properties doc) then [CDoc doc]
  else modified_features doc.

(** ** The renumbering of children, in the words of the specification *)

(** The identifier of the object equals [old_id]. *)
Definition has_StepId (old_id : Z) (o : Obj.t) : Prop :=
  py_eq (getattr (Obj.Properties o) "StepId" PyNone) (PyInt old_id) = true.

(** One pair of the mapping: "finds the unique child object whose
    identifier equals old_id and updates it to new_id; if zero or more than
    one match, skips that pair". *)
Inductive remap_pair (old_id new_id : Z) (objs : list Obj.t) : list Obj.t -> Prop :=
| remap_unique i o :
    objs !! i = Some o →
    has_StepId old_id o →
    (∀ j o', objs !! j = Some o' → has_StepId old_id o' → j = i) →
    remap_pair old_id new_id objs (<[i := Obj.setattr "StepId" (PyInt new_id) o]> objs)
| remap_zero :
    (∀ i o, objs !! i = Some o → ¬ has_StepId old_id o) →
    remap_pair old_id new_id objs objs
| remap_ambiguous i j oi oj :
    i ≠ j →
    objs !! i = Some oi → has_StepId old_id oi →
    objs !! j = Some oj → has_StepId old_id oj →
    remap_pair old_id new_id objs objs.

(** The pairs of the mapping, one after the other, each on the objects as
    the pairs before it left them. *)
Inductive remap_all : list (Z * Z) -> list Obj.t -> list Obj.t -> Prop :=
| remap_done objs : remap_all [] objs objs
| remap_next old_id new_id table objs objs1 objs2 :
    remap_pair old_id new_id objs objs1 →
    remap_all table objs1 objs2 →
    remap_all ((old_id, new_id) :: table) objs objs2.

(** The step identifiers of a list of objects, as integers where they are. *)
Definition step_ids (objs : list Obj.t) : list (option Z) :=
  List.map (fun o => match Obj.Properties o !! "StepId" with
                     | Some (PyInt z) => Some z
                     | _ => None
                     end) objs.

(** The world [w'] has the trace of [w] followed by calls that [p]
    does not select. *)
Definition extends_without (p : Call -> bool) (w w' : World) : Prop :=
  ∃ l, calls w' = calls w ++ l ∧ count_calls p l = 0%nat.

(** The world with more calls on its trace and nothing else changed. *)
Definition add_calls (l : list Call) (w : World) : World :=
  mkWorld (self w) (listDocuments w) (GuiUp w) (params w) (dialog w) (calls w ++ l).

(** [save] shows the export dialog for this document. *)
Definition dialog_shown (doc : Doc.t) (w : World) : bool :=
  match save_candidates doc with [] => false | _ :: _ => true end
  && GetBool (params w) "AskBeforeSaving" true && GuiUp w.

(** ** What the deferred actions hand over *)

(** The four calls of a conversion, in the order [convert] makes them. *)
Definition conversion_calls (obj : Obj.t) (doc : Doc.t) : list Call :=
  [ print "Converting" (Obj.Label obj);
    aggregate (Obj.Name obj) (Doc.Name doc);
    add_geom_properties (Obj.Name obj);
    recompute (Doc.Name doc) ].

(** The object can be converted: it is a [Part::Feature] with an
    [IfcType] property. *)
Definition convertible (obj : Obj.t) : bool :=
  Obj.isDerivedFrom obj "Part::Feature" && hasattr (Obj.Properties obj) "IfcType".

(** The view proxy of the candidate can be reached, and so can its proxy
    when the file path is set and the proxy is asked for its file. *)
Definition saveable (c : Candidate) : bool :=
  match cand_ViewObject c with
  | Some (mkViewProvider (Some (ProxyObj _))) =>
      if truthy (getattr (cand_Properties c) "IfcFilePath" PyNone)
      then match cand_Proxy c with Some _ => true | None => false end
      else true
  | _ => false
  end.

(** The call that saves a candidate: over its file when it has a path and
    an open file, through the save-as flow otherwise. *)
Definition save_call (c : Candidate) : Call :=
  if truthy (getattr (cand_Properties c) "IfcFilePath" PyNone)
     && match cand_Proxy c with
        | Some proxy => truthy (getattr (proxy_dict proxy) "ifcfile" PyNone)
        | None => false
        end
  then vp_save (cand_Name c)
  else vp_save_as (cand_Name c).

(** The calls of the export dialog. *)
Definition dialog_calls : list Call := [loadUi "ui/dialogExport.ui"; exec_].

(** ** What an activation does to the objects *)

(** The object is shown in the display mode "Coin". *)
Definition is_coin (o : Obj.t) : bool :=
  py_eq (getattr (Obj.Properties o) "ShapeMode" PyNone) (PyStr "Coin").

(** The object with [Proxy.cached] set, when it is shown in mode "Coin"
    and has a proxy to set it on. *)
Definition mark_cached (o : Obj.t) : Obj.t :=
  if is_coin o then
    match Obj.Proxy o ≫= proxy_setattr "cached" (PyBool true) with
    | Some proxy' => Obj.set_Proxy proxy' o
    | None => o
    end
  else o.

(** The timers that touch the objects shown in mode "Coin". *)
Definition touch_timers (objs : list Obj.t) : list Call :=
  List.map (fun o => singleShot 100 (cb_touch (Obj.Name o))) (List.filter is_coin objs).

(** ** What a migration does to the children *)

(** Position [j] holds a child whose identifier equals [old_id]. *)
Definition child_at (old_id : Z) (objs : list Obj.t) (j : nat) : Prop :=
  ∃ o, objs !! j = Some o ∧ has_StepId old_id o.

(** Position [i] holds the only child whose identifier equals [old_id]. *)
Definition only_child_at (old_id : Z) (objs : list Obj.t) (i : nat) : Prop :=
  child_at old_id objs i ∧ ∀ j, child_at old_id objs j → j = i.

(** Two objects that differ in the value of their [StepId] at most: one
    has the property exactly when the other has it. *)
Definition same_but_StepId (o o' : Obj.t) : Prop :=
  Obj.Name o' = Obj.Name o
  ∧ Obj.Label o' = Obj.Label o
  ∧ Obj.TypeIds o' = Obj.TypeIds o
  ∧ Obj.Proxy o' = Obj.Proxy o
  ∧ Obj.ViewObject o' = Obj.ViewObject o
  ∧ Obj.Document o' = Obj.Document o
  ∧ (∀ key, key ≠ "StepId" → Obj.Properties o' !! key = Obj.Properties o !! key)
  ∧ (hasattr (Obj.Properties o') "StepId" = hasattr (Obj.Properties o) "StepId").

(** ** Basic facts *)

Lemma new_calls_app (w : World) (l : list Call) :
  drop (length (calls w)) (calls w ++ l) = l.
Proof. by rewrite drop_app_length. Qed.

Lemma new_calls_same (w : World) : new_calls w w = [].
Proof. unfold new_calls. by rewrite drop_all. Qed.

Lemma new_calls_add (w : World) (c : Call) : new_calls w (add_call c w) = [c].
Proof. unfold new_calls, add_call; simpl. apply new_calls_app. Qed.

(** ** on_object_deleted *)

(** C6. [slotDeletedObject] hands the object to [remove_ifc_element]
    exactly when [get_project] answers a project, the object has a [Proxy]
    attribute and the proxy's [nodelete] flag is not set; otherwise the
    world is left as it was.  In particular an object whose proxy has the
    flag set is never removed.  The slot never raises. *)
Theorem slotDeletedObject_removes_iff (get_project : Obj.t -> PyVal) (obj : Obj.t) (w : World) :
  let r := slotDeletedObject get_project obj w in
  r.2 = inr tt
  ∧ (In (remove_ifc_element (Obj.Name obj)) (new_calls w r.1)
     ↔ truthy (get_project obj) = true
       ∧ ∃ proxy, Obj.Proxy obj = Some proxy
                  ∧ truthy (getattr (proxy_dict proxy) "nodelete" (PyBool false)) = false)
  ∧ (count_calls is_remove_ifc_element (new_calls w r.1) = 0%nat → r.1 = w)
  ∧ (∀ proxy, Obj.Proxy obj = Some proxy →
       truthy (getattr (proxy_dict proxy) "nodelete" (PyBool false)) = true →
       r.1 = w).
Proof.
  unfold slotDeletedObject; cbn zeta.
  destruct (truthy (get_project obj)) eqn:Hproj; cbn [negb].
  2:{ cbn. rewrite new_calls_same. split; [done|]. split; [|done].
      split; [intros [] | intros (? & _); discriminate]. }
  destruct (Obj.Proxy obj) as [proxy|] eqn:Hproxy.
  2:{ cbn. rewrite new_calls_same. split; [done|]. split; [|done].
      split; [intros [] | intros (_ & ? & ? & _); discriminate]. }
  destruct (truthy (getattr (proxy_dict proxy) "nodelete" (PyBool false))) eqn:Hflag.
  - cbn. rewrite new_calls_same. split; [done|]. split; [|done].
    split; [intros [] | intros (_ & p & [= <-] & Hp); congruence].
  - unfold call, modify; cbn. rewrite new_calls_add. split; [done|]. split; [|split].
    + split; [eauto | intros _; by left].
    + cbn. discriminate.
    + intros p [= <-] Hp. congruence.
Qed.

(** ** on_object_created *)

(** C7. When the document of a created object does not carry the
    [IfcFilePath] attribute, [slotCreatedObject] changes nothing: no timer is
    armed and neither pending name is written. *)
Theorem slotCreatedObject_without_marker (obj : Obj.t) (w : World) (doc : Doc.t) :
  obj_Document w obj = Some doc →
  hasattr (Doc.Properties doc) "IfcFilePath" = false →
  slotCreatedObject obj w = (w, inr tt).
Proof.
  intros Hdoc Hmark. unfold slotCreatedObject, bind, gets.
  by rewrite Hdoc, Hmark.
Qed.

Lemma slotCreatedObject_without_marker_witness :
  slotCreatedObject Samples.wall (Samples.world ifc_observer [Samples.plain_doc] true)
  = (Samples.world ifc_observer [Samples.plain_doc] true, inr tt).
Proof.
  apply (slotCreatedObject_without_marker _ _ Samples.plain_doc); reflexivity.
Defined.

(** ** deferred_save: the candidates *)

Lemma fold_left_append_filter {A B} (keep : A -> bool) (f : A -> B)
      (step : list B -> A -> list B) (l : list A) (acc : list B) :
  (∀ objs x, step objs x = if keep x then objs ++ [f x] else objs) →
  fold_left step l acc = acc ++ List.map f (List.filter keep l).
Proof.
  intros Hstep. revert acc; induction l as [|x l IH]; intros acc; simpl.
  - by rewrite app_nil_r.
  - rewrite IH, Hstep. destruct (keep x); simpl; [|done].
    by rewrite <- app_assoc.
Qed.

Lemma save_candidates_features (doc : Doc.t) :
  is_ifc_document doc = false → save_candidates doc = modified_features doc.
Proof.
  intros Hdoc. unfold save_candidates, modified_features.
  unfold is_ifc_document in Hdoc. rewrite Hdoc.
  apply (fold_left_append_filter
           (fun o => is_modified_ifc (Obj.Properties o)) CObj).
  intros objs o. unfold is_modified_ifc.
  by destruct (hasattr (Obj.Properties o) "IfcFilePath" && hasattr (Obj.Properties o) "Modified").
Qed.

(** C1, as amended.  The document is examined first: when it carries both
    the [IfcFilePath] attribute and the [Modified] flag it is the only
    possible candidate, selected when the flag is set and not otherwise, and
    its objects are not looked at.  Only a document lacking one of the two
    attributes has its [Part::FeaturePython] objects examined, and then the
    candidates are exactly those that carry both attributes with the flag
    set, in document order.  So a document without the IFC marker whose
    only feature-object is a modified IFC object has that object as its
    only candidate. *)
Theorem save_candidates_by_design (doc : Doc.t) :
  (is_modified_ifc (Doc.Properties doc) = true → save_candidates doc = [CDoc doc])
  ∧ (is_ifc_document doc = true →
     truthy (getattr (Doc.Properties doc) "Modified" PyNone) = false →
     save_candidates doc = [])
  ∧ (is_ifc_document doc = false → save_candidates doc = modified_features doc)
  ∧ (∀ o, is_ifc_document doc = false →
          Doc.findObjects "Part::FeaturePython" doc = [o] →
          is_modified_ifc (Obj.Properties o) = true →
          save_candidates doc = [CObj o]).
Proof.
  split; [|split; [|split]].
  - unfold is_modified_ifc, save_candidates.
    intros [Hboth ->]%andb_prop. by rewrite Hboth.
  - unfold is_ifc_document, save_candidates. by intros -> ->.
  - apply save_candidates_features.
  - intros o Hdoc Hfeat Ho. rewrite save_candidates_features by done.
    unfold modified_features. rewrite Hfeat. simpl. by rewrite Ho.
Qed.

Lemma save_candidates_by_design_witness :
  let p := Samples.project "Project" true Samples.gui_view in
  save_candidates (Samples.ifc_doc true "IFC2X3" [p]) = [CDoc (Samples.ifc_doc true "IFC2X3" [p])]
  ∧ save_candidates (Samples.ifc_doc false "IFC2X3" [p]) = []
  ∧ save_candidates (Samples.host_doc [p]) = [CObj p].
Proof.
  cbn zeta. repeat apply conj.
  - by apply (proj1 (save_candidates_by_design _)).
  - by apply (proj1 (proj2 (save_candidates_by_design _))).
  - by apply (proj2 (proj2 (proj2 (save_candidates_by_design _)))).
Defined.

(** The wording of the specification fails on a document that is itself
    the IFC project, is not modified, and holds a modified IFC
    feature-object: the wording selects the object, [save] selects
    nothing. *)
Lemma save_candidates_counterexample :
  let p := Samples.project "Project" true Samples.gui_view in
  let doc := Samples.ifc_doc false "IFC2X3" [p] in
  spec_candidates doc = [CObj p]
  ∧ save_candidates doc = []
  ∧ save_candidates doc ≠ spec_candidates doc.
Proof.
  cbn zeta. split; [reflexivity|]. split; [reflexivity|]. discriminate.
Qed.

(** ** The pending names *)

Lemma for_preserves {S A} (P : S -> Prop) (body : A -> M S unit) :
  (∀ x s, P s → P (body x s).1) →
  ∀ xs s, P s → P (for_ xs body s).1.
Proof.
  intros Hbody xs. induction xs as [|x xs IH]; intros s Hs; simpl; [done|].
  unfold bind. specialize (Hbody x s Hs).
  destruct (body x s) as [s' [e|[]]]; simpl in *; [done|]. by apply IH.
Qed.

Lemma add_calls_nil (w : World) : add_calls [] w = w.
Proof. destruct w. unfold add_calls; simpl. by rewrite app_nil_r. Qed.

Lemma add_calls_add_calls (l l' : list Call) (w : World) :
  add_calls l (add_calls l' w) = add_calls (l' ++ l) w.
Proof. unfold add_calls; simpl. by rewrite app_assoc. Qed.

Lemma new_calls_add_calls (l : list Call) (w : World) :
  new_calls w (add_calls l w) = l.
Proof. unfold new_calls; simpl. apply new_calls_app. Qed.

(** Calling into the view proxy adds that call to the trace, or raises
    and adds nothing. *)
Lemma view_proxy_call_calls (c : Candidate) (name : string) (method : string -> Call)
      (w : World) :
  (view_proxy_call c name method w).1 = w
  ∨ (view_proxy_call c name method w).1 = add_calls [method (cand_Name c)] w.
Proof.
  unfold view_proxy_call.
  destruct (cand_ViewObject c) as [v|]; [|by left].
  destruct (vp_Proxy v) as [[|d]|]; [by left|by right|by left].
Qed.

Lemma save_object_calls (c : Candidate) (w : World) :
  ∃ l, (save_object c w).1 = add_calls l w
       ∧ Forall (fun x => is_view_save x = true) l.
Proof.
  assert (Hview : ∀ name method, (∀ n, is_view_save (method n) = true) →
    ∃ l, (view_proxy_call c name method w).1 = add_calls l w
         ∧ Forall (fun x => is_view_save x = true) l).
  { intros name method Hm. destruct (view_proxy_call_calls c name method w) as [->| ->].
    - exists []. by rewrite add_calls_nil.
    - eexists. split; [done|]. by constructor. }
  assert (Hnone : ∀ out : Exn + unit, ∃ l, (w, out).1 = add_calls l w
            ∧ Forall (fun x => is_view_save x = true) l).
  { intros out. exists []. by rewrite add_calls_nil. }
  unfold save_object, bind, attr.
  destruct (cand_Properties c !! "IfcFilePath") as [path|]; [|apply Hnone].
  unfold ret at 1. cbn beta iota.
  destruct (truthy path).
  - destruct (cand_Proxy c) as [proxy|]; [|apply Hnone].
    unfold ret at 1. cbn beta iota. destruct (truthy _); by apply Hview.
  - unfold ret at 1. cbn beta iota. by apply Hview.
Qed.

Lemma save_objects_calls (objs : list Candidate) (w : World) :
  ∃ l, (for_ objs save_object w).1 = add_calls l w
       ∧ Forall (fun x => is_view_save x = true) l.
Proof.
  apply (for_preserves
           (fun s => ∃ l, s = add_calls l w ∧ Forall (fun x => is_view_save x = true) l)).
  - intros c s (l & -> & Hl).
    destruct (save_object_calls c (add_calls l w)) as (l' & -> & Hl').
    exists (l ++ l'). rewrite add_calls_add_calls. split; [done|].
    by apply Forall_app.
  - exists []. by rewrite add_calls_nil.
Qed.

(** [save] past its guards goes on with the document it found, the
    pending document name deleted. *)
Lemma save_found (w : World) (name : string) (doc : Doc.t) :
  docname (self w) = Some name →
  listDocuments w !! name = Some doc →
  save w = save_document doc (set_self (mkObserver None (objname (self w))) w).
Proof.
  intros Hname Hdoc. unfold save, bind, gets, modify. by rewrite Hname, Hdoc.
Qed.

(** [save_document] with the monad unfolded. *)
Lemma save_document_run (doc : Doc.t) (w : World) :
  save_document doc w
  = match save_candidates doc with
    | [] => (w, inr tt)
    | c :: objs =>
        if GetBool (params w) "AskBeforeSaving" true && GuiUp w then
          let w1 := add_calls [loadUi "ui/dialogExport.ui"; exec_] w in
          if dlg_result (dialog w) then
            for_ (c :: objs) save_object
                 (set_params (<["AskBeforeSaving" := dlg_isChecked (dialog w)]> (params w)) w1)
          else (w1, inr tt)
        else for_ (c :: objs) save_object w
    end.
Proof.
  unfold save_document. cbn zeta.
  destruct (save_candidates doc) as [|c objs]; [done|].
  unfold bind, gets, call, modify. cbn beta iota.
  destruct (GetBool (params w) "AskBeforeSaving" true && GuiUp w); [|done].
  cbn beta iota. cbn [dialog add_call params].
  assert (add_call exec_ (add_call (loadUi "ui/dialogExport.ui") w)
          = add_calls [loadUi "ui/dialogExport.ui"; exec_] w) as ->.
  { unfold add_call, add_calls; simpl. by rewrite <- app_assoc. }
  by destruct (dlg_result (dialog w)).
Qed.

(** What [save_document] leaves behind: more calls on the trace, and the
    stored preference when the dialog was shown and accepted. *)
Lemma save_document_world (doc : Doc.t) (w : World) :
  ∃ l, (save_document doc w).1
       = add_calls l
           (if dialog_shown doc w && dlg_result (dialog w)
            then set_params (<["AskBeforeSaving" := dlg_isChecked (dialog w)]> (params w)) w
            else w)
       ∧ (dialog_shown doc w && negb (dlg_result (dialog w)) = true →
          l = [loadUi "ui/dialogExport.ui"; exec_]
          ∧ (save_document doc w).2 = inr tt).
Proof.
  rewrite save_document_run. unfold dialog_shown.
  destruct (save_candidates doc) as [|c objs].
  { exists []. by rewrite add_calls_nil. }
  cbn [andb].
  destruct (GetBool (params w) "AskBeforeSaving" true && GuiUp w); cbn [andb].
  - cbn zeta. destruct (dlg_result (dialog w)); cbn [negb].
    + match goal with |- context [for_ _ _ ?w0] =>
        destruct (save_objects_calls (c :: objs) w0) as (l & Hl & _) end.
      exists ([loadUi "ui/dialogExport.ui"; exec_] ++ l). split; [|done].
      rewrite Hl. unfold add_calls, set_params; simpl.
      by rewrite <- !app_assoc.
    + by exists [loadUi "ui/dialogExport.ui"; exec_].
  - destruct (save_objects_calls (c :: objs) w) as (l & Hl & _).
    exists l. split; [done|]. discriminate.
Qed.

(** [save] past its guards: the pending document name is gone, whatever
    happens afterwards. *)
Lemma save_clears_docname (w : World) (name : string) (doc : Doc.t) :
  docname (self w) = Some name →
  listDocuments w !! name = Some doc →
  self (save w).1 = mkObserver None (objname (self w)).
Proof.
  intros Hname Hdoc. rewrite (save_found w name doc) by done.
  destruct (save_document_world doc (set_self (mkObserver None (objname (self w))) w))
    as (l & -> & _).
  by destruct (_ && _).
Qed.

Lemma save_early_exit (w : World) :
  (∀ name, docname (self w) = Some name → listDocuments w !! name = None) →
  save w = (w, inr tt).
Proof.
  intros Hgone. unfold save, bind, gets.
  destruct (docname (self w)) as [name|]; [|done].
  by rewrite (Hgone name).
Qed.


Lemma in_list_elem_of (name : string) (l : list string) :
  in_list name l = true ↔ name ∈ l.
Proof.
  unfold in_list. rewrite existsb_exists. split.
  - intros (x & Hx & ->%String.eqb_eq). by apply list_elem_of_In.
  - intros Hin. exists name. split; [by apply list_elem_of_In | apply String.eqb_refl].
Qed.

(** Membership in [PropertiesList] is having the property. *)
Lemma in_list_PropertiesList (name : string) (m : PyDict) :
  in_list name (map_to_list m).*1 = hasattr m name.
Proof.
  unfold hasattr. destruct (m !! name) as [v|] eqn:Hm.
  - apply in_list_elem_of. apply list_elem_of_fmap. exists (name, v).
    split; [done|]. by apply elem_of_map_to_list.
  - apply not_true_is_false. rewrite in_list_elem_of.
    intros ([k v] & -> & Hin%elem_of_map_to_list)%list_elem_of_fmap.
    simpl in *. congruence.
Qed.

(** C2, as amended.  The pending names are deleted when the deferred
    action has passed its guards and not before: [save] deletes the pending
    document name once that document is found among the documents of the
    host, and [convert] deletes both names once the document is found, the
    object is found in it and the object has no [StepId] property.  Every
    earlier exit returns with the world, pending names included, exactly
    as it was. *)
Theorem pending_names_cleared_past_guards (w : World) :
  (∀ name doc, docname (self w) = Some name → listDocuments w !! name = Some doc →
     self (save w).1 = mkObserver None (objname (self w)))
  ∧ (∀ name, docname (self w) = Some name → listDocuments w !! name = None →
     save w = (w, inr tt))
  ∧ (∀ oname dname, objname (self w) = Some oname → docname (self w) = Some dname →
     (∀ doc obj, listDocuments w !! dname = Some doc →
        Doc.getObject oname doc = Some obj →
        hasattr (Obj.Properties obj) "StepId" = false →
        self (convert w).1 = mkObserver None None)
     ∧ (listDocuments w !! dname = None → convert w = (w, inr tt))
     ∧ (∀ doc, listDocuments w !! dname = Some doc →
        Doc.getObject oname doc = None → convert w = (w, inr tt))
     ∧ (∀ doc obj, listDocuments w !! dname = Some doc →
        Doc.getObject oname doc = Some obj →
        hasattr (Obj.Properties obj) "StepId" = true →
        convert w = (w, inr tt))).
Proof.
  split; [|split; [|intros oname dname Ho Hd; repeat apply conj]].
  - intros name doc. apply save_clears_docname.
  - intros name Hname Hgone. apply save_early_exit.
    intros name' Hname'. congruence.
  - intros doc obj Hdoc Hobj Hstep.
    unfold convert, bind, gets. rewrite Ho, Hd, Hdoc, Hobj.
    unfold Obj.PropertiesList. rewrite in_list_PropertiesList, Hstep.
    unfold modify, call; cbn.
    destruct (Obj.isDerivedFrom obj "Part::Feature"); [|done].
    by destruct (in_list "IfcType" _).
  - intros Hdoc. unfold convert, bind, gets. by rewrite Ho, Hd, Hdoc.
  - intros doc Hdoc Hobj. unfold convert, bind, gets. by rewrite Ho, Hd, Hdoc, Hobj.
  - intros doc obj Hdoc Hobj Hstep.
    unfold convert, bind, gets. rewrite Ho, Hd, Hdoc, Hobj.
    unfold Obj.PropertiesList. by rewrite in_list_PropertiesList, Hstep.
Qed.

Lemma pending_names_cleared_past_guards_witness :
  let project := Samples.project "Project" true Samples.gui_view in
  let saving := Samples.world (mkObserver (Some "Host") None)
                              [Samples.host_doc [project]] true in
  let converting := Samples.world (mkObserver (Some "Plain") (Some "Wall"))
                                  [Samples.plain_doc] true in
  self (save saving).1 = mkObserver None None
  ∧ self (convert converting).1 = mkObserver None None.
Proof.
  cbn zeta. split.
  - by apply (proj1 (pending_names_cleared_past_guards
                       (Samples.world (mkObserver (Some "Host") None)
                          [Samples.host_doc [Samples.project "Project" true Samples.gui_view]]
                          true))
                    "Host"
                    (Samples.host_doc [Samples.project "Project" true Samples.gui_view])).
  - by apply (proj1 (proj2 (proj2 (pending_names_cleared_past_guards
                       (Samples.world (mkObserver (Some "Plain") (Some "Wall"))
                          [Samples.plain_doc] true)))
                       "Wall" "Plain" eq_refl eq_refl)
                    Samples.plain_doc Samples.wall).
Defined.

(** The early exits keep the pending names: [convert] when the document
    is gone, when the object is gone and when the object already has a
    [StepId]; [save] when the document is gone. *)
Lemma pending_names_counterexample :
  let pending := mkObserver (Some "Ifc") (Some "Wall") in
  let gone := Samples.world pending [] true in
  let empty := Samples.world pending [Samples.ifc_doc false "IFC4" []] true in
  let converted :=
    Samples.world pending [Samples.ifc_doc false "IFC4" [Samples.element "Wall" 7]] true in
  (self (convert gone).1 = pending
   ∧ self (convert empty).1 = pending
   ∧ self (convert converted).1 = pending
   ∧ self (save gone).1 = pending)
  ∧ docname (self (convert gone).1) ≠ None
  ∧ objname (self (convert gone).1) ≠ None
  ∧ docname (self (save gone).1) ≠ None.
Proof.
  cbn zeta. repeat apply conj; try reflexivity; discriminate.
Qed.

(** ** on_document_property_changed: the children *)

Lemma child_from_elem (old_id : Z) (objs : list Obj.t) (k i : nat) :
  i ∈ child_from k old_id objs
  ↔ (k ≤ i)%nat ∧ ∃ o, objs !! (i - k)%nat = Some o ∧ has_StepId old_id o.
Proof.
  revert k. induction objs as [|o objs IH]; intros k; simpl.
  - rewrite elem_of_nil. split; [done|]. by intros (_ & ? & ? & _).
  - assert (Hrest : i ∈ child_from (S k) old_id objs
              ↔ (k < i)%nat ∧ ∃ o', (o :: objs) !! (i - k)%nat = Some o' ∧ has_StepId old_id o').
    { rewrite IH. split.
      - intros (Hle & o' & Hlook & Ho'). split; [lia|]. exists o'. split; [|done].
        replace (i - k)%nat with (S (i - S k)) by lia. done.
      - intros (Hlt & o' & Hlook & Ho'). split; [lia|]. exists o'. split; [|done].
        replace (i - k)%nat with (S (i - S k)) in Hlook by lia. done. }
    destruct (py_eq _ _) eqn:Ho.
    + rewrite elem_of_cons, Hrest. split.
      * intros [->|(Hlt & Hex)]; [|split; [lia|done]].
        split; [lia|]. exists o. by rewrite Nat.sub_diag.
      * intros (Hle & o' & Hlook & Ho').
        destruct (decide (i = k)) as [->|Hne]; [by left|right].
        split; [lia|]. eauto.
    + rewrite Hrest. split.
      * intros (Hlt & Hex). split; [lia|done].
      * intros (Hle & o' & Hlook & Ho').
        destruct (decide (i = k)) as [->|Hne]; [|split; [lia|eauto]].
        rewrite Nat.sub_diag in Hlook. simpl in Hlook. injection Hlook as <-.
        unfold has_StepId in Ho'. congruence.
Qed.

Lemma child_from_NoDup (old_id : Z) (objs : list Obj.t) (k : nat) :
  NoDup (child_from k old_id objs).
Proof.
  revert k. induction objs as [|o objs IH]; intros k; simpl; [constructor|].
  destruct (py_eq _ _); [|apply IH].
  constructor; [|apply IH]. rewrite child_from_elem. lia.
Qed.

Lemma child_elem (old_id : Z) (objs : list Obj.t) (i : nat) :
  i ∈ child_from 0 old_id objs ↔ ∃ o, objs !! i = Some o ∧ has_StepId old_id o.
Proof.
  rewrite child_from_elem, Nat.sub_0_r. split; [by intros (_ & ?)|].
  intros ?. split; [lia|done].
Qed.

Lemma alter_insert_lookup {A} (f : A -> A) (l : list A) (i : nat) (x : A) :
  l !! i = Some x → alter f i l = <[i := f x]> l.
Proof.
  intros Hx. rewrite list_insert_alter. apply list_alter_ext; [|done].
  intros y Hy. congruence.
Qed.

(** The loop body does to the children what the specification says of
    one pair. *)
Lemma migrate_child_remap (objs : list Obj.t) (old_id new_id : Z) :
  remap_pair old_id new_id objs (migrate_child objs (old_id, new_id)).
Proof.
  unfold migrate_child.
  pose proof (child_elem old_id objs) as Helem.
  pose proof (child_from_NoDup old_id objs 0) as Hnodup.
  destruct (child_from 0 old_id objs) as [|c0 [|c1 rest]]; simpl.
  - apply remap_zero. intros i o Hi Ho.
    assert (i ∈ @nil nat) as Hin by (apply Helem; eauto).
    by apply elem_of_nil in Hin.
  - destruct (proj1 (Helem c0)) as (o & Hlook & Ho); [by left|].
    rewrite (alter_insert_lookup _ _ _ _ Hlook).
    apply remap_unique; [done..|].
    intros j o' Hj Ho'.
    assert (j ∈ [c0]) as Hin by (apply Helem; eauto).
    by apply list_elem_of_singleton in Hin.
  - destruct (proj1 (Helem c0)) as (o0 & Hlook0 & Ho0); [by left|].
    destruct (proj1 (Helem c1)) as (o1 & Hlook1 & Ho1); [right; by left|].
    apply (remap_ambiguous _ _ _ c0 c1 o0 o1); try done.
    intros ->. apply NoDup_cons in Hnodup as [Hnot _].
    apply Hnot. by left.
Qed.

Lemma fold_migrate_child_remap (table : list (Z * Z)) (objs : list Obj.t) :
  remap_all table objs (fold_left migrate_child table objs).
Proof.
  revert objs. induction table as [|[old_id new_id] table IH]; intros objs; simpl.
  - constructor.
  - econstructor; [apply migrate_child_remap | apply IH].
Qed.

(** The loop over the mapping touches the objects of the document only. *)
Lemma migrate_loop_run (table : list (Z * Z)) (d : Doc.t) (w : World) :
  for_ table (fun item =>
    modify_doc (fun d => Doc.set_Objects (migrate_child (Doc.Objects d) item) d)) (d, w)
  = ((Doc.set_Objects (fold_left migrate_child table (Doc.Objects d)) d, w), inr tt).
Proof.
  revert d. induction table as [|item table IH]; intros d; simpl.
  - by destruct d.
  - unfold bind, modify_doc, modify. cbn beta iota. rewrite IH. by destruct d.
Qed.

(** What [slotChangedDocument] computes, with the monad unfolded. *)
Lemma slotChangedDocument_run (get_ifcfile : Doc.t -> option IfcFile)
      (migrate_schema_result : IfcFile -> PyVal -> IfcFile * list (Z * Z))
      (prop : string) (doc : Doc.t) (w : World) :
  slotChangedDocument get_ifcfile migrate_schema_result prop (doc, w)
  = if String.eqb prop "Schema" && hasattr (Doc.Properties doc) "IfcFilePath" then
      match Doc.Properties doc !! "Schema" with
      | None => ((doc, w), inl (AttributeError "Schema"))
      | Some schema =>
          match get_ifcfile doc with
          | None => ((doc, w), inr tt)
          | Some f =>
              if py_eq schema (PyStr (schema_name f)) then ((doc, w), inr tt)
              else
                let w' := add_call (migrate_schema f schema) w in
                match Doc.Proxy doc ≫= proxy_setattr "ifcfile"
                        (PyFile (migrate_schema_result f schema).1) with
                | None => ((doc, w'), inl (AttributeError "Proxy"))
                | Some proxy' =>
                    ((Doc.set_Objects
                        (fold_left migrate_child (migrate_schema_result f schema).2
                                   (Doc.Objects doc))
                        (Doc.set_Proxy proxy' doc), w'), inr tt)
                end
          end
      end
    else ((doc, w), inr tt).
Proof.
  unfold slotChangedDocument, bind, get_doc, gets. cbn beta iota. cbn [fst].
  unfold Doc.PropertiesList. rewrite in_list_PropertiesList.
  destruct (String.eqb prop "Schema" && hasattr (Doc.Properties doc) "IfcFilePath"); [|done].
  unfold attr. destruct (Doc.Properties doc !! "Schema") as [schema|]; [|done].
  unfold ret at 1. cbn beta iota. destruct (get_ifcfile doc) as [f|]; [|done].
  destruct (py_eq schema (PyStr (schema_name f))); [done|]. cbn [negb].
  unfold call_d, modify. cbn beta iota.
  destruct (migrate_schema_result f schema) as [f' table]. cbn [fst snd].
  destruct (Doc.Proxy doc ≫= proxy_setattr "ifcfile" (PyFile f')) as [proxy'|]; [|done].
  unfold modify_doc at 1, modify. cbn beta iota.
  by rewrite migrate_loop_run.
Qed.

(** The loop pair by pair, for a document with a proxy object: the pairs
    of the migration table are taken in order, and each pair gives [new_id]
    to the one child whose [StepId] equals [old_id] at that moment, or
    changes nothing when no child or more than one child has it then.
    With the table 10 to 20, 11 to 21, one child at 10 and one at 11 are
    both renumbered; two children at 10 both keep it. *)
Lemma slotChangedDocument_remaps_in_table_order :
  (∀ (get_ifcfile : Doc.t -> option IfcFile)
     (migrate_schema_result : IfcFile -> PyVal -> IfcFile * list (Z * Z))
     (doc : Doc.t) (w : World) (schema : PyVal) (f f' : IfcFile)
     (table : list (Z * Z)) (dict : PyDict),
     hasattr (Doc.Properties doc) "IfcFilePath" = true →
     Doc.Properties doc !! "Schema" = Some schema →
     get_ifcfile doc = Some f →
     py_eq schema (PyStr (schema_name f)) = false →
     migrate_schema_result f schema = (f', table) →
     Doc.Proxy doc = Some (ProxyObj dict) →
     ∃ doc',
       slotChangedDocument get_ifcfile migrate_schema_result "Schema" (doc, w)
       = ((doc', add_call (migrate_schema f schema) w), inr tt)
       ∧ remap_all table (Doc.Objects doc) (Doc.Objects doc'))
  ∧ (let doc := Samples.ifc_doc true "IFC4" [Samples.element "A" 10; Samples.element "B" 11] in
     let r := slotChangedDocument Samples.get_ifcfile Samples.migrate_schema_result
                                  "Schema" (doc, Samples.empty_world) in
     r.2 = inr tt ∧ step_ids (Doc.Objects r.1.1) = [Some 20; Some 21])
  ∧ (let doc := Samples.ifc_doc true "IFC4" [Samples.element "A" 10; Samples.element "B" 10] in
     let r := slotChangedDocument Samples.get_ifcfile Samples.migrate_schema_result
                                  "Schema" (doc, Samples.empty_world) in
     r.2 = inr tt ∧ step_ids (Doc.Objects r.1.1) = [Some 10; Some 10]).
Proof.
  split; [|split; cbn zeta; split; reflexivity].
  intros get_ifcfile migrate_schema_result doc w schema f f' table dict
         Hpath Hschema Hfile Hdiff Hmig Hproxy.
  rewrite slotChangedDocument_run. cbn [String.eqb Ascii.eqb Bool.eqb andb].
  rewrite Hpath, Hschema, Hfile, Hdiff, Hmig, Hproxy. cbn.
  eexists. split; [done|]. cbn. apply fold_migrate_child_remap.
Qed.

Lemma slotChangedDocument_remaps_in_table_order_witness :
  let doc := Samples.ifc_doc true "IFC4" [Samples.element "A" 10; Samples.element "B" 11] in
  ∃ doc',
    slotChangedDocument Samples.get_ifcfile Samples.migrate_schema_result
                        "Schema" (doc, Samples.empty_world)
    = ((doc', add_call (migrate_schema Samples.ifc2x3 (PyStr "IFC4")) Samples.empty_world),
       inr tt)
    ∧ remap_all [(10, 20); (11, 21)] (Doc.Objects doc) (Doc.Objects doc').
Proof.
  cbn zeta.
  apply (proj1 slotChangedDocument_remaps_in_table_order
               Samples.get_ifcfile Samples.migrate_schema_result _ _
               (PyStr "IFC4") Samples.ifc2x3 Samples.ifc4 _
               {[ "ifcfile" := PyFile Samples.ifc2x3 ]});
    reflexivity.
Defined.

(** The identifiers are matched against the children as the earlier pairs
    left them: a table that chains 10 to 11 and 11 to 12 carries a single
    child at 10 through both pairs. *)
Example migrate_child_chain :
  step_ids (fold_left migrate_child [(10, 11); (11, 12)] [Samples.element "A" 10])
  = [Some 12].
Proof. reflexivity. Qed.

(** C4. The loop renumbers in place, pair after pair, so a pair meets
    the children as the earlier pairs left them.  With the table 10 to 11,
    11 to 12, a child at 10 and a child at 11, each the only child with its
    identifier: the first pair moves the first child to 11, the second pair
    then finds two children at 11 and skips, so the child that was alone at
    11 is never renumbered and both end at 11.  The same table taken in
    the other order renumbers both, to 11 and 12. *)
Theorem slotChangedDocument_chained_table :
  let doc := Samples.ifc_doc true "IFC4" [Samples.element "A" 10; Samples.element "B" 11] in
  let r := slotChangedDocument Samples.get_ifcfile Samples.chained_migration
                               "Schema" (doc, Samples.empty_world) in
  let r' := slotChangedDocument Samples.get_ifcfile Samples.reversed_migration
                                "Schema" (doc, Samples.empty_world) in
  only_child_at 10 (Doc.Objects doc) 0
  ∧ only_child_at 11 (Doc.Objects doc) 1
  ∧ r.2 = inr tt
  ∧ step_ids (Doc.Objects r.1.1) = [Some 11; Some 11]
  ∧ r'.2 = inr tt
  ∧ step_ids (Doc.Objects r'.1.1) = [Some 11; Some 12].
Proof.
  cbn zeta.
  assert (Honly : ∀ (old_id : Z) (i : nat) (o : Obj.t),
            [Samples.element "A" 10; Samples.element "B" 11] !! i = Some o →
            has_StepId old_id o →
            (∀ j o', [Samples.element "A" 10; Samples.element "B" 11] !! j = Some o' →
                     has_StepId old_id o' → j = i) →
            only_child_at old_id [Samples.element "A" 10; Samples.element "B" 11] i).
  { intros old_id i o Hi Ho Huniq. split; [by exists o|].
    intros j (o' & Hj & Ho'). by apply (Huniq j o'). }
  split; [|split; [|repeat apply conj; reflexivity]].
  - apply (Honly 10 0%nat (Samples.element "A" 10)); [done|reflexivity|].
    intros [|[|j]] o' Hj Ho'; [done| |done].
    injection Hj as <-. discriminate.
  - apply (Honly 11 1%nat (Samples.element "B" 11)); [done|reflexivity|].
    intros [|[|j]] o' Hj Ho'; [|done|done].
    injection Hj as <-. discriminate.
Qed.

(** ** on_document_property_changed: when it migrates *)

(** C5. [slotChangedDocument] calls the migration exactly when the
    property is "Schema", the document has the [IfcFilePath] property,
    [get_ifcfile] answers a file and the schema name of that file differs
    from the [Schema] of the document; it calls it at most once.  When the
    two schemas are the same the slot leaves the document and the world
    untouched. *)
Theorem slotChangedDocument_migrates_iff
        (get_ifcfile : Doc.t -> option IfcFile)
        (migrate_schema_result : IfcFile -> PyVal -> IfcFile * list (Z * Z))
        (prop : string) (doc : Doc.t) (w : World) :
  let r := slotChangedDocument get_ifcfile migrate_schema_result prop (doc, w) in
  ((∃ f schema, In (migrate_schema f schema) (new_calls w r.1.2))
   ↔ prop = "Schema"
     ∧ hasattr (Doc.Properties doc) "IfcFilePath" = true
     ∧ ∃ f schema, get_ifcfile doc = Some f
                   ∧ Doc.Properties doc !! "Schema" = Some schema
                   ∧ py_eq schema (PyStr (schema_name f)) = false)
  ∧ (count_calls is_migrate_schema (new_calls w r.1.2) ≤ 1)%nat
  ∧ (∀ f schema, get_ifcfile doc = Some f →
                 Doc.Properties doc !! "Schema" = Some schema →
                 py_eq schema (PyStr (schema_name f)) = true →
                 r = ((doc, w), inr tt)).
Proof.
  cbn zeta. rewrite slotChangedDocument_run.
  assert (Hnone : ∀ out : Exn + unit,
    let r := ((doc, w), out) in
    ((∃ f schema, In (migrate_schema f schema) (new_calls w r.1.2)) ↔ False)
    ∧ (count_calls is_migrate_schema (new_calls w r.1.2) ≤ 1)%nat).
  { intros out. cbn. rewrite new_calls_same. split; [|cbn; lia].
    split; [by intros (? & ? & ?)|done]. }
  destruct (String.eqb prop "Schema") eqn:Hprop; cbn [andb].
  2:{ destruct (Hnone (inr tt)) as [Hiff Hcount]. split; [|split; [done|done]].
      rewrite Hiff. split; [done|]. intros (-> & _). discriminate. }
  apply String.eqb_eq in Hprop as ->.
  destruct (hasattr (Doc.Properties doc) "IfcFilePath") eqn:Hpath.
  2:{ destruct (Hnone (inr tt)) as [Hiff Hcount]. split; [|split; [done|done]].
      rewrite Hiff. split; [done|]. intros (_ & ? & _). discriminate. }
  destruct (Doc.Properties doc !! "Schema") as [schema|] eqn:Hschema.
  2:{ destruct (Hnone (inl (AttributeError "Schema"))) as [Hiff Hcount].
      split; [|split; [done|]].
      - rewrite Hiff. split; [done|]. intros (_ & _ & ? & ? & _ & ? & _). discriminate.
      - intros ? ? _ ?. discriminate. }
  destruct (get_ifcfile doc) as [f|] eqn:Hfile.
  2:{ destruct (Hnone (inr tt)) as [Hiff Hcount]. split; [|split; [done|done]].
      rewrite Hiff. split; [done|]. intros (_ & _ & ? & ? & ? & _). discriminate. }
  destruct (py_eq schema (PyStr (schema_name f))) eqn:Hsame.
  { destruct (Hnone (inr tt)) as [Hiff Hcount]. split; [|split; [done|done]].
    rewrite Hiff. split; [done|].
    intros (_ & _ & f0 & s0 & [= <-] & [= <-] & ?). congruence. }
  cbn zeta.
  assert (Hcalls : ∀ (d : Doc.t) (out : Exn + unit),
    let r := ((d, add_call (migrate_schema f schema) w), out) in
    ((∃ f schema, In (migrate_schema f schema) (new_calls w r.1.2)) ↔ True)
    ∧ (count_calls is_migrate_schema (new_calls w r.1.2) ≤ 1)%nat).
  { intros d out. cbn. rewrite new_calls_add. split; [|cbn; lia].
    split; [done|]. intros _. exists f, schema. by left. }
  destruct (Doc.Proxy doc ≫= proxy_setattr "ifcfile" _) as [proxy'|].
  - match goal with |- context [((?d, _), inr tt)] =>
      destruct (Hcalls d (inr tt)) as [Hiff Hcount] end.
    split; [|split; [done|]].
    + rewrite Hiff. split; [|done]. intros _. split; [done|]. split; [done|]. eauto.
    + intros f0 s0 [= <-] [= <-] ?. congruence.
  - destruct (Hcalls doc (inl (AttributeError "Proxy"))) as [Hiff Hcount].
    split; [|split; [done|]].
    + rewrite Hiff. split; [|done]. intros _. split; [done|]. split; [done|]. eauto.
    + intros f0 s0 [= <-] [= <-] ?. congruence.
Qed.

(** ** on_document_activated *)

Lemma extends_without_refl (p : Call -> bool) (w : World) : extends_without p w w.
Proof. exists []. by rewrite app_nil_r. Qed.

Lemma extends_without_add (p : Call -> bool) (w w' : World) (c : Call) :
  p c = false → extends_without p w w' → extends_without p w (add_call c w').
Proof.
  intros Hc (l & Hl & Hcount). exists (l ++ [c]). split.
  - simpl. by rewrite Hl, app_assoc.
  - unfold count_calls in *. rewrite List.filter_app, length_app, Hcount. simpl.
    by rewrite Hc.
Qed.

Lemma extends_without_count (p : Call -> bool) (w w' : World) :
  extends_without p w w' → count_calls p (new_calls w w') = 0%nat.
Proof.
  intros (l & Hl & Hcount). unfold new_calls. by rewrite Hl, new_calls_app.
Qed.

Lemma activate_object_no_ghost (w : World) (i : nat) (s : DocWorld) :
  extends_without is_create_ghost w s.2 →
  extends_without is_create_ghost w (activate_object i s).1.2.
Proof.
  intros Hs. destruct s as [d w']. unfold activate_object, bind, get_doc, gets.
  cbn beta iota. cbn [fst].
  destruct (Doc.Objects d !! i) as [obj|]; [|done].
  destruct (py_eq _ _); [|done].
  destruct (Obj.Proxy obj ≫= proxy_setattr "cached" (PyBool true)); [|done].
  unfold modify_doc, call_d, modify. cbn beta iota.
  by apply extends_without_add.
Qed.

(** Activating a document whose proxy already carries a ghost never
    reaches the ghost creator. *)
Lemma slotActivateDocument_ghost_present (create_ghost_effect : Doc.t -> Doc.t)
      (doc : Doc.t) (w : World) (proxy : PyProxy) :
  Doc.Proxy doc = Some proxy →
  hasattr (proxy_dict proxy) "ghost" = true →
  extends_without is_create_ghost w (slotActivateDocument create_ghost_effect (doc, w)).1.2.
Proof.
  intros Hproxy Hghost. unfold slotActivateDocument, bind, get_doc, gets.
  cbn beta iota. cbn [fst]. rewrite Hproxy.
  destruct (hasattr (proxy_dict proxy) "ifcfile"); [|apply extends_without_refl].
  destruct (Doc.Objects doc) as [|o objs] eqn:Hobjs.
  - rewrite Hghost. apply extends_without_refl.
  - pose proof (for_preserves
        (fun s : DocWorld => extends_without is_create_ghost w s.2)
        activate_object (fun i s => activate_object_no_ghost w i s)
        (seq 0 (length (o :: objs))) (doc, w) (extends_without_refl _ w)) as Hloop.
    destruct (for_ (seq 0 (length (o :: objs))) activate_object (doc, w))
      as [[d' w'] [e|[]]]; [done|].
    unfold call_d, modify. cbn beta iota. cbn [fst snd] in *.
    by repeat apply extends_without_add.
Qed.

(** C8. Activating a document that has a proxy with an IFC file, no
    object and no ghost calls the ghost creator exactly once.  Once the
    proxy carries the ghost, as the creator leaves it, activating the
    document again calls the creator no more: after both activations it has
    been called once. *)
Theorem slotActivateDocument_ghost_once (create_ghost_effect : Doc.t -> Doc.t)
        (doc : Doc.t) (w : World) (proxy : PyProxy) :
  (∃ proxy', Doc.Proxy (create_ghost_effect doc) = Some proxy'
             ∧ hasattr (proxy_dict proxy') "ghost" = true) →
  Doc.Proxy doc = Some proxy →
  hasattr (proxy_dict proxy) "ifcfile" = true →
  Doc.Objects doc = [] →
  hasattr (proxy_dict proxy) "ghost" = false →
  let r1 := slotActivateDocument create_ghost_effect (doc, w) in
  let r2 := slotActivateDocument create_ghost_effect r1.1 in
  r1 = ((create_ghost_effect doc, add_call (create_ghost (Doc.Name doc)) w), inr tt)
  ∧ count_calls is_create_ghost (new_calls w r1.1.2) = 1%nat
  ∧ count_calls is_create_ghost (new_calls r1.1.2 r2.1.2) = 0%nat
  ∧ count_calls is_create_ghost (new_calls w r2.1.2) = 1%nat.
Proof.
  intros (proxy' & Hproxy' & Hghost') Hproxy Hfile Hobjs Hghost. cbn zeta.
  assert (Hfirst : slotActivateDocument create_ghost_effect (doc, w)
            = ((create_ghost_effect doc, add_call (create_ghost (Doc.Name doc)) w), inr tt)).
  { unfold slotActivateDocument, bind, get_doc, gets. cbn beta iota. cbn [fst].
    by rewrite Hproxy, Hfile, Hobjs, Hghost. }
  rewrite Hfirst. cbn [fst snd].
  pose proof (slotActivateDocument_ghost_present create_ghost_effect
                (create_ghost_effect doc) (add_call (create_ghost (Doc.Name doc)) w)
                proxy' Hproxy' Hghost') as (l & Hl & Hcount).
  repeat apply conj.
  - done.
  - by rewrite new_calls_add.
  - unfold new_calls. by rewrite Hl, new_calls_app.
  - unfold new_calls. rewrite Hl. cbn [calls add_call].
    rewrite <- app_assoc, new_calls_app.
    unfold count_calls in *. rewrite List.filter_app, length_app, Hcount. done.
Qed.

Lemma slotActivateDocument_ghost_once_witness :
  let r1 := slotActivateDocument Samples.create_ghost_effect
                                 (Samples.opened_doc, Samples.empty_world) in
  let r2 := slotActivateDocument Samples.create_ghost_effect r1.1 in
  r1 = ((Samples.create_ghost_effect Samples.opened_doc,
         add_call (create_ghost "Ifc") Samples.empty_world), inr tt)
  ∧ count_calls is_create_ghost (new_calls Samples.empty_world r1.1.2) = 1%nat
  ∧ count_calls is_create_ghost (new_calls r1.1.2 r2.1.2) = 0%nat
  ∧ count_calls is_create_ghost (new_calls Samples.empty_world r2.1.2) = 1%nat.
Proof.
  apply (slotActivateDocument_ghost_once Samples.create_ghost_effect
           Samples.opened_doc Samples.empty_world
           (ProxyObj {[ "ifcfile" := PyFile Samples.ifc2x3 ]})).
  - eexists. split; reflexivity.
  - reflexivity.
  - reflexivity.
  - reflexivity.
  - reflexivity.
Defined.

(** ** The pending document name is shared *)

Lemma slotStartSaveDocument_run (doc : Doc.t) (value : PyVal) (w : World) :
  slotStartSaveDocument doc value w
  = (add_call (singleShot 100 cb_save)
       (set_self (mkObserver (Some (Doc.Name doc)) (objname (self w))) w), inr tt).
Proof. reflexivity. Qed.

Lemma slotCreatedObject_run (obj : Obj.t) (w : World) (doc : Doc.t) :
  obj_Document w obj = Some doc →
  hasattr (Doc.Properties doc) "IfcFilePath" = true →
  slotCreatedObject obj w
  = (add_call (singleShot 100 cb_convert)
       (set_self (mkObserver (Some (Doc.Name doc)) (Some (Obj.Name obj))) w), inr tt).
Proof.
  intros Hdoc Hmark. unfold slotCreatedObject, bind, gets. cbn beta iota.
  by rewrite Hdoc, Hmark.
Qed.

(** C9. [slotStartSaveDocument] and [slotCreatedObject] write the same
    field.  After a save has started on one document, creating an object in
    an IFC document replaces the pending name by the name of that object's
    document, and the [save] that fires next goes on with the document
    registered under that name (or stops, when there is none); the name
    recorded for the save is lost. *)
Theorem created_object_overwrites_pending_save
        (saved : Doc.t) (value : PyVal) (obj : Obj.t) (doc : Doc.t) (w : World) :
  obj_Document w obj = Some doc →
  hasattr (Doc.Properties doc) "IfcFilePath" = true →
  let w1 := (slotStartSaveDocument saved value w).1 in
  let w2 := (slotCreatedObject obj w1).1 in
  docname (self w1) = Some (Doc.Name saved)
  ∧ docname (self w2) = Some (Doc.Name doc)
  ∧ objname (self w2) = Some (Obj.Name obj)
  ∧ (∀ target, listDocuments w !! Doc.Name doc = Some target →
       save w2 = save_document target
                   (set_self (mkObserver None (Some (Obj.Name obj))) w2))
  ∧ (listDocuments w !! Doc.Name doc = None → save w2 = (w2, inr tt)).
Proof.
  intros Hdoc Hmark. cbn zeta.
  rewrite slotStartSaveDocument_run. cbn [fst].
  rewrite (slotCreatedObject_run obj _ doc) by done. cbn [fst].
  repeat apply conj; try done.
  - intros target Htarget. by rewrite (save_found _ (Doc.Name doc) target).
  - intros Hgone. apply save_early_exit. intros name [= <-]. done.
Qed.

Lemma created_object_overwrites_pending_save_witness :
  let project := Samples.project "Project" true Samples.gui_view in
  let saved := Samples.host_doc [project] in
  let doc := Samples.ifc_doc false "IFC2X3" [Samples.element "Wall" 7] in
  let w := Samples.quiet (Samples.world ifc_observer [saved; doc] true) in
  let w1 := (slotStartSaveDocument saved PyNone w).1 in
  let w2 := (slotCreatedObject (Samples.element "Wall" 7) w1).1 in
  (docname (self w1) = Some "Host"
   ∧ docname (self w2) = Some "Ifc"
   ∧ objname (self w2) = Some "Wall"
   ∧ (∀ target, listDocuments w !! "Ifc" = Some target →
        save w2 = save_document target (set_self (mkObserver None (Some "Wall")) w2))
   ∧ (listDocuments w !! "Ifc" = None → save w2 = (w2, inr tt)))
  ∧ new_calls w1 (save w1).1 = [vp_save "Project"]
  ∧ new_calls w2 (save w2).1 = [].
Proof.
  cbn zeta. split; [|split; reflexivity].
  apply (created_object_overwrites_pending_save
           (Samples.host_doc [Samples.project "Project" true Samples.gui_view]) PyNone
           (Samples.element "Wall" 7)
           (Samples.ifc_doc false "IFC2X3" [Samples.element "Wall" 7])); reflexivity.
Defined.

(** ** deferred_save: the dialog *)

(** C10. When [save] shows the dialog and the user rejects it, [save]
    returns at once: the trace only gains the dialog, no candidate is
    saved and the stored preferences are as before.  Whenever [save]
    changes the stored preferences, the dialog was shown and accepted, and
    the change is the value of its check box under "AskBeforeSaving". *)
Theorem save_dialog_rejected :
  (∀ (w : World) (name : string) (doc : Doc.t),
     docname (self w) = Some name →
     listDocuments w !! name = Some doc →
     save_candidates doc ≠ [] →
     GetBool (params w) "AskBeforeSaving" true = true →
     GuiUp w = true →
     dlg_result (dialog w) = false →
     save w = (add_calls [loadUi "ui/dialogExport.ui"; exec_]
                 (set_self (mkObserver None (objname (self w))) w), inr tt)
     ∧ count_calls is_view_save (new_calls w (save w).1) = 0%nat
     ∧ params (save w).1 = params w)
  ∧ (∀ w : World,
     params (save w).1 ≠ params w →
     ∃ name doc,
       docname (self w) = Some name
       ∧ listDocuments w !! name = Some doc
       ∧ save_candidates doc ≠ []
       ∧ GetBool (params w) "AskBeforeSaving" true = true
       ∧ GuiUp w = true
       ∧ dlg_result (dialog w) = true
       ∧ params (save w).1 = <["AskBeforeSaving" := dlg_isChecked (dialog w)]> (params w)).
Proof.
  split.
  - intros w name doc Hname Hdoc Hobjs Hask Hgui Hrej.
    assert (Hsave : save w = (add_calls [loadUi "ui/dialogExport.ui"; exec_]
                 (set_self (mkObserver None (objname (self w))) w), inr tt)).
    { rewrite (save_found w name doc) by done. rewrite save_document_run.
      destruct (save_candidates doc) as [|c objs]; [done|].
      cbn [params set_self GuiUp dialog]. by rewrite Hask, Hgui, Hrej. }
    rewrite Hsave. cbn [fst]. split; [done|]. split; [|done].
    unfold new_calls; simpl. by rewrite new_calls_app.
  - intros w Hchanged.
    destruct (docname (self w)) as [name|] eqn:Hname.
    2:{ exfalso. apply Hchanged. rewrite save_early_exit; [done|]. intros ?. congruence. }
    destruct (listDocuments w !! name) as [doc|] eqn:Hdoc.
    2:{ exfalso. apply Hchanged. rewrite save_early_exit; [done|].
        intros name' Hname'. congruence. }
    exists name, doc. rewrite (save_found w name doc) in * by done.
    destruct (save_document_world doc (set_self (mkObserver None (objname (self w))) w))
      as (l & Hl & _).
    rewrite Hl in *. unfold dialog_shown in *.
    cbn [params set_self GuiUp dialog] in *.
    destruct (save_candidates doc) as [|c objs]; [done|].
    destruct (GetBool (params w) "AskBeforeSaving" true); [|done].
    destruct (GuiUp w); [|done].
    destruct (dlg_result (dialog w)); [|done].
    cbn [andb] in *. done.
Qed.

Lemma save_dialog_rejected_witness :
  let project := Samples.project "Project" true Samples.gui_view in
  let w := Samples.world (mkObserver (Some "Host") None) [Samples.host_doc [project]] true in
  save w = (add_calls [loadUi "ui/dialogExport.ui"; exec_] (set_self ifc_observer w), inr tt)
  ∧ count_calls is_view_save (new_calls w (save w).1) = 0%nat
  ∧ params (save w).1 = params w.
Proof.
  cbn zeta.
  apply (proj1 save_dialog_rejected
               (Samples.world (mkObserver (Some "Host") None)
                  [Samples.host_doc [Samples.project "Project" true Samples.gui_view]] true)
               "Host"
               (Samples.host_doc [Samples.project "Project" true Samples.gui_view]));
    try reflexivity.
  discriminate.
Defined.

(** An accepted dialog stores the state of its check box and the
    candidates are saved. *)
Example save_dialog_accepted :
  let project := Samples.project "Project" true Samples.gui_view in
  let w := Samples.accepting false
             (Samples.world (mkObserver (Some "Host") None) [Samples.host_doc [project]] true) in
  (save w).2 = inr tt
  ∧ params (save w).1 !! "AskBeforeSaving" = Some false
  ∧ new_calls w (save w).1 = [loadUi "ui/dialogExport.ui"; exec_; vp_save "Project"].
Proof. cbn zeta. repeat split; reflexivity. Qed.

(** ** What reaches the host *)

(** The slots that probe every attribute before they use it return
    normally on every input. *)
Lemma guarded_slots_never_raise (doc : Doc.t) (value : PyVal) (obj : Obj.t) (w : World) :
  (slotStartSaveDocument doc value w).2 = inr tt
  ∧ (slotCreatedObject obj w).2 = inr tt
  ∧ (fit_all w).2 = inr tt
  ∧ (convert w).2 = inr tt.
Proof.
  repeat apply conj.
  - done.
  - unfold slotCreatedObject, bind, gets. cbn beta iota.
    destruct (obj_Document w obj) as [d|]; [|done]. by destruct (hasattr _ _).
  - unfold fit_all, bind, gets. cbn beta iota. by destruct (GuiUp w).
  - unfold convert, bind, gets. cbn beta iota.
    destruct (objname (self w)) as [oname|]; [|done].
    destruct (docname (self w)) as [dname|]; [|done].
    destruct (listDocuments w !! dname) as [d|]; [|done].
    destruct (Doc.getObject oname d) as [o|]; [|done].
    destruct (in_list "StepId" _); [done|].
    unfold modify, call. cbn beta iota.
    destruct (Obj.isDerivedFrom o "Part::Feature"); [|done].
    by destruct (in_list "IfcType" _).
Qed.

(** C3. Without a GUI the objects of the host have no view object.
    [save] then skips the dialog, as it should, but goes on to call the
    view proxy of its candidate: for a document holding one modified IFC
    project whose [ViewObject] is [None], [save] ends in an
    [AttributeError] instead of completing.  With the GUI up and a view
    object in place the same save completes. *)
Theorem save_without_gui_raises :
  let headless := Samples.project "Project" true None in
  let w := Samples.world (mkObserver (Some "Host") None)
                         [Samples.host_doc [headless]] false in
  let viewed := Samples.project "Project" true Samples.gui_view in
  let w' := Samples.quiet (Samples.world (mkObserver (Some "Host") None)
                                         [Samples.host_doc [viewed]] true) in
  save_candidates (Samples.host_doc [headless]) = [CObj headless]
  ∧ save w = (set_self ifc_observer w, inl (AttributeError "Proxy"))
  ∧ save w' = (add_call (vp_save "Project") (set_self ifc_observer w'), inr tt).
Proof. cbn zeta. repeat split; reflexivity. Qed.

(** Two more attribute accesses are not probed first: [doc.Proxy] when
    the migrated file is stored, and [obj.Proxy] when an object shown in
    mode "Coin" is marked as cached. *)
Example slots_raise_on_missing_proxy :
  let bare := Doc.mk "Ifc" {[ "IfcFilePath" := PyStr "/tmp/a.ifc"; "Schema" := PyStr "IFC4" ]}
                     None None [] in
  let coin := Samples.ifc_doc false "IFC2X3" [Samples.coin_without_proxy] in
  (slotChangedDocument Samples.get_ifcfile Samples.migrate_schema_result "Schema"
                       (bare, Samples.empty_world)).2 = inl (AttributeError "Proxy")
  ∧ (slotActivateDocument Samples.create_ghost_effect (coin, Samples.empty_world)).2
    = inl (AttributeError "Proxy").
Proof. cbn zeta. split; reflexivity. Qed.

(** ** deferred_convert: what it delegates *)

(** [convert] with the monad unfolded. *)
Lemma convert_run (w : World) :
  convert w
  = match objname (self w), docname (self w) with
    | Some oname, Some dname =>
        match listDocuments w !! dname with
        | None => (w, inr tt)
        | Some doc =>
            match Doc.getObject oname doc with
            | None => (w, inr tt)
            | Some obj =>
                if hasattr (Obj.Properties obj) "StepId" then (w, inr tt)
                else (add_calls (if convertible obj then conversion_calls obj doc else [])
                                (set_self ifc_observer w), inr tt)
            end
        end
    | _, _ => (w, inr tt)
    end.
Proof.
  unfold convert, bind, gets. cbn beta iota.
  destruct (objname (self w)) as [oname|]; [|done].
  destruct (docname (self w)) as [dname|]; [|done].
  destruct (listDocuments w !! dname) as [doc|]; [|done].
  destruct (Doc.getObject oname doc) as [obj|]; [|done].
  unfold Obj.PropertiesList, convertible. rewrite !in_list_PropertiesList.
  destruct (hasattr (Obj.Properties obj) "StepId"); [done|].
  unfold modify, call. cbn beta iota. cbn [set_self self objname docname].
  destruct (Obj.isDerivedFrom obj "Part::Feature"); cbn [andb].
  2:{ by rewrite add_calls_nil. }
  destruct (hasattr (Obj.Properties obj) "IfcType").
  2:{ by rewrite add_calls_nil. }
  unfold modify. cbn beta iota.
  unfold add_call, add_calls, set_self, conversion_calls; simpl.
  by rewrite <- !app_assoc.
Qed.

(** X1. [convert] hands an object over exactly when both names are
    pending, the document is registered, the object is found in it without
    a [StepId], and it is a [Part::Feature] with an [IfcType]: then it
    prints, aggregates, adds the geometry properties and recomputes, once
    each and in that order.  In every other case it calls nothing. *)
Theorem convert_delegates_iff :
  (∀ (w : World) (oname dname : string) (doc : Doc.t) (obj : Obj.t),
     objname (self w) = Some oname →
     docname (self w) = Some dname →
     listDocuments w !! dname = Some doc →
     Doc.getObject oname doc = Some obj →
     hasattr (Obj.Properties obj) "StepId" = false →
     Obj.isDerivedFrom obj "Part::Feature" = true →
     hasattr (Obj.Properties obj) "IfcType" = true →
     convert w = (add_calls (conversion_calls obj doc) (set_self ifc_observer w), inr tt))
  ∧ (∀ w : World,
     new_calls w (convert w).1 ≠ [] →
     ∃ oname dname doc obj,
       objname (self w) = Some oname
       ∧ docname (self w) = Some dname
       ∧ listDocuments w !! dname = Some doc
       ∧ Doc.getObject oname doc = Some obj
       ∧ hasattr (Obj.Properties obj) "StepId" = false
       ∧ Obj.isDerivedFrom obj "Part::Feature" = true
       ∧ hasattr (Obj.Properties obj) "IfcType" = true
       ∧ new_calls w (convert w).1 = conversion_calls obj doc).
Proof.
  split.
  - intros w oname dname doc obj Ho Hd Hdoc Hobj Hstep Hfeat Htype.
    rewrite convert_run, Ho, Hd, Hdoc, Hobj, Hstep.
    unfold convertible. by rewrite Hfeat, Htype.
  - intros w. rewrite convert_run.
    destruct (objname (self w)) as [oname|]; [|by rewrite new_calls_same].
    destruct (docname (self w)) as [dname|]; [|by rewrite new_calls_same].
    destruct (listDocuments w !! dname) as [doc|] eqn:Hdoc; [|by rewrite new_calls_same].
    destruct (Doc.getObject oname doc) as [obj|] eqn:Hobj; [|by rewrite new_calls_same].
    destruct (hasattr (Obj.Properties obj) "StepId") eqn:Hstep; [by rewrite new_calls_same|].
    cbn [fst]. unfold new_calls. cbn [calls add_calls set_self]. rewrite new_calls_app.
    unfold convertible.
    destruct (Obj.isDerivedFrom obj "Part::Feature") eqn:Hfeat; [|done].
    destruct (hasattr (Obj.Properties obj) "IfcType") eqn:Htype; [|done].
    intros _. by exists oname, dname, doc, obj.
Qed.

Lemma convert_delegates_iff_witness :
  let w := Samples.world (mkObserver (Some "Plain") (Some "Wall")) [Samples.plain_doc] true in
  convert w
  = (add_calls (conversion_calls Samples.wall Samples.plain_doc) (set_self ifc_observer w),
     inr tt).
Proof.
  cbn zeta.
  by apply (proj1 convert_delegates_iff
                  (Samples.world (mkObserver (Some "Plain") (Some "Wall"))
                                 [Samples.plain_doc] true)
                  "Wall" "Plain" Samples.plain_doc Samples.wall).
Defined.

(** ** Timers that fire late, twice or in between *)

Lemma save_nothing_pending (w : World) :
  docname (self w) = None → save w = (w, inr tt).
Proof. intros Hnone. apply save_early_exit. intros name. congruence. Qed.

Lemma save_fires_once (w : World) : save (save w).1 = ((save w).1, inr tt).
Proof.
  destruct (docname (self w)) as [name|] eqn:Hname.
  2:{ rewrite (save_nothing_pending w Hname). cbn [fst].
      apply (save_nothing_pending w Hname). }
  destruct (listDocuments w !! name) as [doc|] eqn:Hdoc.
  - apply save_nothing_pending. by rewrite (save_clears_docname w name doc).
  - assert (Hsame : save w = (w, inr tt)).
    { apply save_early_exit. intros name' Hname'. congruence. }
    rewrite Hsame. cbn [fst]. apply Hsame.
Qed.

Lemma convert_fires_once (w : World) : convert (convert w).1 = ((convert w).1, inr tt).
Proof.
  pose proof (convert_run w) as Hrun.
  destruct (objname (self w)) as [oname|] eqn:Ho;
    [|rewrite Hrun; cbn [fst]; by rewrite Hrun].
  destruct (docname (self w)) as [dname|] eqn:Hd;
    [|rewrite Hrun; cbn [fst]; by rewrite Hrun].
  destruct (listDocuments w !! dname) as [doc|] eqn:Hdoc;
    [|rewrite Hrun; cbn [fst]; by rewrite Hrun].
  destruct (Doc.getObject oname doc) as [obj|] eqn:Hobj;
    [|rewrite Hrun; cbn [fst]; by rewrite Hrun].
  destruct (hasattr (Obj.Properties obj) "StepId") eqn:Hstep;
    [rewrite Hrun; cbn [fst]; by rewrite Hrun|].
  rewrite Hrun. cbn [fst]. by rewrite convert_run.
Qed.

(** X2. A deferred action that has fired leaves nothing for a second
    firing: running [save] again on the world the first [save] left, or
    [convert] again after [convert], returns at once with that world
    unchanged, whether the first firing went through, stopped early or
    raised. *)
Theorem deferred_actions_fire_once (w : World) :
  save (save w).1 = ((save w).1, inr tt)
  ∧ convert (convert w).1 = ((convert w).1, inr tt).
Proof. split; [apply save_fires_once | apply convert_fires_once]. Qed.

(** X3. Two saves started in a row arm two timers but leave one pending
    name, the later one: the first firing of [save] goes on with the
    document registered under the name of the second document, and the
    second firing does nothing. *)
Theorem save_start_last_writer_wins
        (first second : Doc.t) (v1 v2 : PyVal) (w : World) :
  let w2 := (slotStartSaveDocument second v2 (slotStartSaveDocument first v1 w).1).1 in
  self w2 = mkObserver (Some (Doc.Name second)) (objname (self w))
  ∧ new_calls w w2 = [singleShot 100 cb_save; singleShot 100 cb_save]
  ∧ (∀ target, listDocuments w !! Doc.Name second = Some target →
       save w2 = save_document target (set_self (mkObserver None (objname (self w))) w2))
  ∧ (listDocuments w !! Doc.Name second = None → save w2 = (w2, inr tt))
  ∧ save (save w2).1 = ((save w2).1, inr tt).
Proof.
  cbn zeta. rewrite !slotStartSaveDocument_run. cbn [fst].
  repeat apply conj.
  - done.
  - unfold new_calls; simpl. by rewrite <- app_assoc, new_calls_app.
  - intros target Htarget. by rewrite (save_found _ (Doc.Name second) target).
  - intros Hgone. apply save_early_exit. by intros name [= <-].
  - apply save_fires_once.
Qed.

(** X4. The pending document name is also what [convert] reads.  When a
    [save] fires between the creation of an object in a registered IFC
    document and its [convert], the save deletes the name, and [convert]
    then returns without calling anything: the object is not converted
    and its name stays pending. *)
Theorem created_object_lost_to_save (obj : Obj.t) (doc registered : Doc.t) (w : World) :
  obj_Document w obj = Some doc →
  hasattr (Doc.Properties doc) "IfcFilePath" = true →
  listDocuments w !! Doc.Name doc = Some registered →
  let w1 := (slotCreatedObject obj w).1 in
  let w2 := (save w1).1 in
  self w1 = mkObserver (Some (Doc.Name doc)) (Some (Obj.Name obj))
  ∧ self w2 = mkObserver None (Some (Obj.Name obj))
  ∧ convert w2 = (w2, inr tt).
Proof.
  intros Hdoc Hmark Hreg. cbn zeta.
  rewrite (slotCreatedObject_run obj w doc) by done. cbn [fst].
  set (w1 := add_call _ _).
  assert (Hself : self (save w1).1 = mkObserver None (Some (Obj.Name obj))).
  { by rewrite (save_clears_docname w1 (Doc.Name doc) registered). }
  repeat apply conj; [done|done|].
  rewrite convert_run, Hself. done.
Qed.

Lemma created_object_lost_to_save_witness :
  let ifc := Samples.ifc_doc false "IFC2X3" [Samples.element "Wall" 7] in
  let w := Samples.world ifc_observer [ifc] true in
  let w1 := (slotCreatedObject (Samples.element "Wall" 7) w).1 in
  let w2 := (save w1).1 in
  self w1 = mkObserver (Some "Ifc") (Some "Wall")
  ∧ self w2 = mkObserver None (Some "Wall")
  ∧ convert w2 = (w2, inr tt).
Proof.
  cbn zeta.
  by apply (created_object_lost_to_save (Samples.element "Wall" 7)
              (Samples.ifc_doc false "IFC2X3" [Samples.element "Wall" 7])
              (Samples.ifc_doc false "IFC2X3" [Samples.element "Wall" 7])
              (Samples.world ifc_observer
                 [Samples.ifc_doc false "IFC2X3" [Samples.element "Wall" 7]] true)).
Defined.

(** ** deferred_save: the dialog and the candidates *)

Lemma save_found_world (w : World) (name : string) (doc : Doc.t) :
  docname (self w) = Some name →
  listDocuments w !! name = Some doc →
  ∃ w0, w0 = set_self (mkObserver None (objname (self w))) w
        ∧ save w = save_document doc w0
        ∧ calls w0 = calls w ∧ params w0 = params w
        ∧ GuiUp w0 = GuiUp w ∧ dialog w0 = dialog w.
Proof.
  intros Hname Hdoc. eexists. split; [done|].
  split; [by apply (save_found w name doc)|done].
Qed.

Lemma not_view_save_in (c : Call) (l : list Call) :
  is_view_save c = false → Forall (fun x => is_view_save x = true) l → ¬ In c l.
Proof.
  intros Hc Hl Hin. rewrite Forall_forall in Hl.
  apply list_elem_of_In, Hl in Hin. congruence.
Qed.

(** X5. [save] opens the export dialog exactly when the pending name
    names a registered document, that document has at least one candidate,
    the stored preference "AskBeforeSaving" (true when absent) is true and
    the GUI is up.  A save with nothing to save never prompts. *)
Theorem save_shows_dialog_iff (w : World) :
  In exec_ (new_calls w (save w).1)
  ↔ ∃ name doc,
      docname (self w) = Some name
      ∧ listDocuments w !! name = Some doc
      ∧ save_candidates doc ≠ []
      ∧ GetBool (params w) "AskBeforeSaving" true = true
      ∧ GuiUp w = true.
Proof.
  destruct (docname (self w)) as [name|] eqn:Hname.
  2:{ rewrite save_nothing_pending by done. cbn [fst]. rewrite new_calls_same.
      split; [intros []|]. intros (? & ? & ? & _). discriminate. }
  destruct (listDocuments w !! name) as [doc|] eqn:Hdoc.
  2:{ rewrite save_early_exit by (intros ? ?; congruence).
      cbn [fst]. rewrite new_calls_same.
      split; [intros []|]. intros (? & ? & [= <-] & ? & _). congruence. }
  destruct (save_found_world w name doc Hname Hdoc)
    as (w0 & Hw0 & -> & Hcalls & Hparams & Hgui & Hdlg).
  assert (Hnew : ∀ l, new_calls w (add_calls l w0) = l).
  { intros l. unfold new_calls; simpl. rewrite Hcalls. apply new_calls_app. }
  rewrite save_document_run, Hparams, Hgui, Hdlg.
  destruct (save_candidates doc) as [|c objs] eqn:Hobjs.
  { cbn [fst]. rewrite <- (add_calls_nil w0), Hnew.
    split; [intros []|]. intros (? & ? & [= <-] & Hd & Hne & _). congruence. }
  destruct (GetBool (params w) "AskBeforeSaving" true) eqn:Hask; cbn [andb].
  2:{ destruct (save_objects_calls (c :: objs) w0) as (l & -> & Hl). rewrite Hnew.
      split; [intros Hin; by apply (not_view_save_in exec_ l) in Hin|].
      intros (? & ? & _ & _ & _ & ? & _). discriminate. }
  destruct (GuiUp w) eqn:Hup.
  2:{ destruct (save_objects_calls (c :: objs) w0) as (l & -> & Hl). rewrite Hnew.
      split; [intros Hin; by apply (not_view_save_in exec_ l) in Hin|].
      intros (? & ? & _ & _ & _ & _ & ?). discriminate. }
  assert (Hyes : ∃ name0 doc0,
            Some name = Some name0 ∧ listDocuments w !! name0 = Some doc0
            ∧ save_candidates doc0 ≠ [] ∧ true = true ∧ true = true).
  { exists name, doc. by rewrite Hobjs. }
  cbn zeta. destruct (dlg_result (dialog w)).
  - match goal with |- context [for_ _ _ ?w1] =>
      destruct (save_objects_calls (c :: objs) w1) as (l & -> & Hl) end.
    split; [done|]. intros _.
    unfold new_calls; simpl. rewrite Hcalls, <- app_assoc, new_calls_app.
    right; by left.
  - cbn [fst]. rewrite Hnew. split; [done|]. intros _. right; by left.
Qed.

Lemma save_candidates_have_path (doc : Doc.t) (c : Candidate) :
  c ∈ save_candidates doc → hasattr (cand_Properties c) "IfcFilePath" = true.
Proof.
  destruct (is_ifc_document doc) eqn:Hdoc.
  - unfold save_candidates. unfold is_ifc_document in Hdoc. rewrite Hdoc.
    destruct (truthy _); simpl; [|by intros ?%elem_of_nil].
    intros ->%list_elem_of_singleton. simpl. by apply andb_prop in Hdoc as [-> _].
  - rewrite save_candidates_features by done. unfold modified_features.
    intros (o & -> & Hin)%list_elem_of_fmap.
    apply list_elem_of_In, filter_In in Hin as [_ Ho]. simpl.
    unfold is_modified_ifc in Ho. by apply andb_prop in Ho as [[-> _]%andb_prop _].
Qed.

(** Saving one candidate whose view proxy can be reached. *)
Lemma save_object_ok (c : Candidate) (w : World) :
  hasattr (cand_Properties c) "IfcFilePath" = true →
  saveable c = true →
  save_object c w = (add_calls [save_call c] w, inr tt).
Proof.
  unfold hasattr, saveable, save_object, save_call, bind, attr, getattr, view_proxy_call.
  destruct (cand_Properties c !! "IfcFilePath") as [path|]; [intros _|done].
  destruct (cand_ViewObject c) as [[[[|d]|]]|]; try done.
  unfold ret at 1. cbn beta iota.
  destruct (truthy path); cbn [andb].
  - destruct (cand_Proxy c) as [proxy|]; [intros _|done].
    unfold ret at 1. cbn beta iota.
    by destruct (truthy _).
  - intros _. by unfold ret at 1.
Qed.

(** Saving one candidate whose view proxy cannot be reached raises and
    calls nothing. *)
Lemma save_object_fails (c : Candidate) (w : World) :
  hasattr (cand_Properties c) "IfcFilePath" = true →
  saveable c = false →
  ∃ e, save_object c w = (w, inl e).
Proof.
  unfold hasattr, saveable, save_object, bind, attr, getattr, view_proxy_call.
  destruct (cand_Properties c !! "IfcFilePath") as [path|]; [intros _|done].
  unfold ret at 1. cbn beta iota.
  destruct (truthy path).
  - destruct (cand_Proxy c) as [proxy|]; [|intros _; by eexists].
    unfold ret at 1. cbn beta iota.
    destruct (cand_ViewObject c) as [[[[|d]|]]|]; try done;
      intros _; destruct (truthy _); by eexists.
  - unfold ret at 1. cbn beta iota.
    destruct (cand_ViewObject c) as [[[[|d]|]]|]; try done; intros _; by eexists.
Qed.

Lemma save_objects_ok (objs : list Candidate) (w : World) :
  (∀ c, c ∈ objs → hasattr (cand_Properties c) "IfcFilePath" = true ∧ saveable c = true) →
  for_ objs save_object w = (add_calls (List.map save_call objs) w, inr tt).
Proof.
  revert w. induction objs as [|c objs IH]; intros w Hall; simpl.
  - by rewrite add_calls_nil.
  - unfold bind. destruct (Hall c) as [Hpath Hsave]; [by left|].
    rewrite (save_object_ok c w Hpath Hsave), IH.
    + by rewrite add_calls_add_calls.
    + intros c' Hc'. apply Hall. by right.
Qed.

Lemma save_objects_stop (before after : list Candidate) (c : Candidate) (w : World) :
  (∀ x, x ∈ before → hasattr (cand_Properties x) "IfcFilePath" = true ∧ saveable x = true) →
  hasattr (cand_Properties c) "IfcFilePath" = true →
  saveable c = false →
  ∃ e, for_ (before ++ c :: after) save_object w
       = (add_calls (List.map save_call before) w, inl e).
Proof.
  revert w. induction before as [|b before IH]; intros w Hall Hpath Hbad; simpl.
  - unfold bind. destruct (save_object_fails c w Hpath Hbad) as (e & ->).
    exists e. by rewrite add_calls_nil.
  - unfold bind. destruct (Hall b) as [Hb1 Hb2]; [by left|].
    rewrite (save_object_ok b w Hb1 Hb2).
    destruct (IH (add_calls [save_call b] w)) as (e & ->); [|done..|].
    + intros x Hx. apply Hall. by right.
    + exists e. by rewrite add_calls_add_calls.
Qed.

(** [save] when the dialog is not shown, or shown and accepted: the loop
    over the candidates runs, after the calls of the dialog if any. *)
Lemma save_goes_on (w : World) (name : string) (doc : Doc.t) :
  docname (self w) = Some name →
  listDocuments w !! name = Some doc →
  (dialog_shown doc w = true → dlg_result (dialog w) = true) →
  ∃ w1, save w = for_ (save_candidates doc) save_object w1
        ∧ self w1 = mkObserver None (objname (self w))
        ∧ calls w1 = calls w ++ (if dialog_shown doc w then dialog_calls else []).
Proof.
  intros Hname Hdoc Haccept.
  destruct (save_found_world w name doc Hname Hdoc)
    as (w0 & Hw0 & -> & Hcalls & Hparams & Hgui & Hdlg).
  rewrite save_document_run, Hparams, Hgui, Hdlg.
  unfold dialog_shown in *.
  destruct (save_candidates doc) as [|c objs].
  { exists w0. rewrite Hcalls, app_nil_r. by subst w0. }
  cbn [andb] in *.
  destruct (GetBool (params w) "AskBeforeSaving" true && GuiUp w).
  - rewrite Haccept by done. cbn zeta. eexists. split; [done|].
    subst w0. split; [done|]. done.
  - exists w0. rewrite Hcalls, app_nil_r. by subst w0.
Qed.

Lemma new_calls_after (w w1 : World) (l0 l : list Call) :
  calls w1 = calls w ++ l0 → new_calls w (add_calls l w1) = l0 ++ l.
Proof.
  intros Hw1. unfold new_calls; simpl. by rewrite Hw1, <- app_assoc, new_calls_app.
Qed.

(** X6. When the view proxy of every candidate can be reached and the
    dialog, if shown, is accepted, [save] completes: after the calls of
    the dialog it saves every candidate once, in order, over its file when
    it has a path and an open file and through save-as otherwise. *)
Theorem save_saves_each_candidate (w : World) (name : string) (doc : Doc.t) :
  docname (self w) = Some name →
  listDocuments w !! name = Some doc →
  (∀ c, c ∈ save_candidates doc → saveable c = true) →
  (dialog_shown doc w = true → dlg_result (dialog w) = true) →
  (save w).2 = inr tt
  ∧ new_calls w (save w).1
    = (if dialog_shown doc w then dialog_calls else [])
      ++ List.map save_call (save_candidates doc).
Proof.
  intros Hname Hdoc Hall Haccept.
  destruct (save_goes_on w name doc Hname Hdoc Haccept) as (w1 & -> & _ & Hcalls).
  rewrite save_objects_ok.
  - split; [done|]. cbn [fst]. by apply new_calls_after.
  - intros c Hc. split; [by apply (save_candidates_have_path doc)|by apply Hall].
Qed.

Lemma save_saves_each_candidate_witness :
  let doc := Samples.host_doc [Samples.project "Saved" true Samples.gui_view; Samples.fresh] in
  let w := Samples.accepting true (Samples.world (mkObserver (Some "Host") None) [doc] true) in
  (save w).2 = inr tt
  ∧ new_calls w (save w).1 = dialog_calls ++ [vp_save "Saved"; vp_save_as "Fresh"].
Proof.
  cbn zeta.
  apply (save_saves_each_candidate
           (Samples.accepting true
              (Samples.world (mkObserver (Some "Host") None)
                 [Samples.host_doc [Samples.project "Saved" true Samples.gui_view;
                                    Samples.fresh]] true))
           "Host"
           (Samples.host_doc [Samples.project "Saved" true Samples.gui_view; Samples.fresh]));
    try reflexivity.
  intros c Hc. cbn in Hc.
  apply elem_of_cons in Hc as [->|Hc]; [reflexivity|].
  apply list_elem_of_singleton in Hc as ->. reflexivity.
Defined.

(** X7. [save] stops at the first candidate whose view proxy cannot be
    reached: the candidates before it have been saved, the exception goes
    to the host, the candidates after it are not saved, and the pending
    document name is already deleted, so that nothing retries them. *)
Theorem save_stops_at_first_failure
        (w : World) (name : string) (doc : Doc.t)
        (before after : list Candidate) (c : Candidate) :
  docname (self w) = Some name →
  listDocuments w !! name = Some doc →
  save_candidates doc = before ++ c :: after →
  (∀ x, x ∈ before → saveable x = true) →
  saveable c = false →
  (dialog_shown doc w = true → dlg_result (dialog w) = true) →
  (∃ e, (save w).2 = inl e)
  ∧ new_calls w (save w).1
    = (if dialog_shown doc w then dialog_calls else []) ++ List.map save_call before
  ∧ docname (self (save w).1) = None.
Proof.
  intros Hname Hdoc Hobjs Hbefore Hbad Haccept.
  destruct (save_goes_on w name doc Hname Hdoc Haccept) as (w1 & -> & Hself & Hcalls).
  assert (Hpath : ∀ x, x ∈ save_candidates doc →
                       hasattr (cand_Properties x) "IfcFilePath" = true)
    by (intros x; apply save_candidates_have_path).
  rewrite Hobjs in *.
  destruct (save_objects_stop before after c w1) as (e & ->).
  - intros x Hx. split; [|by apply Hbefore].
    apply Hpath, elem_of_app. by left.
  - apply Hpath, elem_of_app. right. by left.
  - done.
  - split; [by exists e|]. cbn [fst]. split; [by apply new_calls_after|].
    cbn [self add_calls]. by rewrite Hself.
Qed.

Lemma save_stops_at_first_failure_witness :
  let first := Samples.project "First" true Samples.gui_view in
  let blind := Samples.project "Blind" true None in
  let last := Samples.project "Last" true Samples.gui_view in
  let doc := Samples.host_doc [first; blind; last] in
  let w := Samples.quiet (Samples.world (mkObserver (Some "Host") None) [doc] true) in
  (∃ e, (save w).2 = inl e)
  ∧ new_calls w (save w).1 = [vp_save "First"]
  ∧ docname (self (save w).1) = None.
Proof.
  cbn zeta.
  apply (save_stops_at_first_failure
           (Samples.quiet
              (Samples.world (mkObserver (Some "Host") None)
                 [Samples.host_doc [Samples.project "First" true Samples.gui_view;
                                    Samples.project "Blind" true None;
                                    Samples.project "Last" true Samples.gui_view]] true))
           "Host"
           (Samples.host_doc [Samples.project "First" true Samples.gui_view;
                              Samples.project "Blind" true None;
                              Samples.project "Last" true Samples.gui_view])
           [CObj (Samples.project "First" true Samples.gui_view)]
           [CObj (Samples.project "Last" true Samples.gui_view)]
           (CObj (Samples.project "Blind" true None))); try reflexivity.
  - intros x ->%list_elem_of_singleton. reflexivity.
  - discriminate.
Defined.

Lemma save_quiet_without_ask (w : World) :
  GetBool (params w) "AskBeforeSaving" true = false →
  ¬ In exec_ (new_calls w (save w).1).
Proof.
  intros Hask.
  destruct (docname (self w)) as [name|] eqn:Hname.
  2:{ rewrite save_nothing_pending by done. cbn [fst]. rewrite new_calls_same. intros []. }
  destruct (listDocuments w !! name) as [doc|] eqn:Hdoc.
  2:{ rewrite save_early_exit by (intros ? ?; congruence).
      cbn [fst]. rewrite new_calls_same. intros []. }
  destruct (save_found_world w name doc Hname Hdoc)
    as (w0 & Hw0 & -> & Hcalls & Hparams & Hgui & Hdlg).
  assert (Hnew : ∀ l, new_calls w (add_calls l w0) = l).
  { intros l. unfold new_calls; simpl. rewrite Hcalls. apply new_calls_app. }
  rewrite save_document_run, Hparams, Hask. cbn [andb].
  destruct (save_candidates doc) as [|c objs].
  { cbn [fst]. rewrite <- (add_calls_nil w0), Hnew. intros []. }
  destruct (save_objects_calls (c :: objs) w0) as (l & -> & Hl). rewrite Hnew.
  by apply not_view_save_in.
Qed.

(** X8. An accepted dialog stores the state of its check box under
    "AskBeforeSaving" and no other preference changes; reading the
    preference back gives that state.  When the box was cleared, no later
    [save] that finds these preferences opens the dialog. *)
Theorem save_stores_preference (w : World) (name : string) (doc : Doc.t) :
  docname (self w) = Some name →
  listDocuments w !! name = Some doc →
  save_candidates doc ≠ [] →
  GetBool (params w) "AskBeforeSaving" true = true →
  GuiUp w = true →
  dlg_result (dialog w) = true →
  GetBool (params (save w).1) "AskBeforeSaving" true = dlg_isChecked (dialog w)
  ∧ (∀ key, key ≠ "AskBeforeSaving" → params (save w).1 !! key = params w !! key)
  ∧ (dlg_isChecked (dialog w) = false →
     ∀ later, params later = params (save w).1 →
              ¬ In exec_ (new_calls later (save later).1)).
Proof.
  intros Hname Hdoc Hobjs Hask Hgui Hyes.
  assert (Hparams : params (save w).1
                    = <["AskBeforeSaving" := dlg_isChecked (dialog w)]> (params w)).
  { rewrite (save_found w name doc) by done.
    destruct (save_document_world doc (set_self (mkObserver None (objname (self w))) w))
      as (l & -> & _).
    unfold dialog_shown. cbn [params set_self GuiUp dialog add_calls].
    destruct (save_candidates doc); [done|]. by rewrite Hask, Hgui, Hyes. }
  assert (Hget : GetBool (params (save w).1) "AskBeforeSaving" true
                 = dlg_isChecked (dialog w)).
  { rewrite Hparams. unfold GetBool. by rewrite lookup_insert_eq. }
  repeat apply conj.
  - done.
  - intros key Hkey. rewrite Hparams. by rewrite lookup_insert_ne.
  - intros Hclear later Hlater Hin.
    apply (save_quiet_without_ask later); [|done].
    by rewrite Hlater, Hget.
Qed.

Lemma save_stores_preference_witness :
  let project := Samples.project "Project" true Samples.gui_view in
  let w := Samples.accepting false
             (Samples.world (mkObserver (Some "Host") None) [Samples.host_doc [project]] true) in
  GetBool (params (save w).1) "AskBeforeSaving" true = false
  ∧ (∀ key, key ≠ "AskBeforeSaving" → params (save w).1 !! key = params w !! key)
  ∧ (false = false →
     ∀ later, params later = params (save w).1 →
              ¬ In exec_ (new_calls later (save later).1)).
Proof.
  cbn zeta.
  apply (save_stores_preference
           (Samples.accepting false
              (Samples.world (mkObserver (Some "Host") None)
                 [Samples.host_doc [Samples.project "Project" true Samples.gui_view]] true))
           "Host"
           (Samples.host_doc [Samples.project "Project" true Samples.gui_view]));
    try reflexivity.
  discriminate.
Defined.

(** ** on_document_activated: the objects *)

Lemma set_Objects_set_Objects (a b : list Obj.t) (d : Doc.t) :
  Doc.set_Objects a (Doc.set_Objects b d) = Doc.set_Objects a d.
Proof. done. Qed.

(** The loop of [slotActivateDocument] from position [length seen] on,
    when every object still to come that is shown in mode "Coin" has a
    proxy object. *)
Lemma activate_loop (rest seen : list Obj.t) (d : Doc.t) (w : World) :
  Doc.Objects d = seen ++ rest →
  (∀ o, o ∈ rest → is_coin o = true → ∃ dict, Obj.Proxy o = Some (ProxyObj dict)) →
  for_ (seq (length seen) (length rest)) activate_object (d, w)
  = ((Doc.set_Objects (seen ++ List.map mark_cached rest) d,
      add_calls (touch_timers rest) w), inr tt).
Proof.
  revert seen d w. induction rest as [|o rest IH]; intros seen d w Hobjs Hproxy.
  - simpl. rewrite add_calls_nil. rewrite <- Hobjs. by destruct d.
  - cbn [length seq for_]. unfold bind.
    assert (Hlook : Doc.Objects d !! length seen = Some o).
    { rewrite Hobjs. by rewrite list_lookup_middle. }
    assert (Hrest : ∀ o', o' ∈ rest → is_coin o' = true →
                          ∃ dict, Obj.Proxy o' = Some (ProxyObj dict)).
    { intros o' Ho'. apply Hproxy. by right. }
    assert (Hstep : activate_object (length seen) (d, w)
              = ((Doc.set_Objects ((seen ++ [mark_cached o]) ++ rest) d,
                  add_calls (touch_timers [o]) w), inr tt)).
    { unfold activate_object, bind, get_doc, gets. cbn beta iota. cbn [fst].
      rewrite Hlook. unfold touch_timers, mark_cached. cbn [List.filter].
      fold (is_coin o). destruct (is_coin o) eqn:Hcoin.
      - destruct (Hproxy o) as (dict & Hdict); [by left|done|].
        rewrite Hdict. cbn [mbind option_bind proxy_setattr].
        unfold modify_doc, call_d, modify. cbn beta iota. cbn [List.map].
        rewrite Hobjs.
        replace (length seen) with (length seen + 0)%nat at 1 by lia.
        rewrite alter_app_r. cbn [alter list_alter].
        rewrite <- app_assoc. done.
      - cbn [List.map]. rewrite add_calls_nil, <- app_assoc. cbn [app].
        rewrite <- Hobjs. by destruct d. }
    rewrite Hstep.
    specialize (IH (seen ++ [mark_cached o])
                   (Doc.set_Objects ((seen ++ [mark_cached o]) ++ rest) d)
                   (add_calls (touch_timers [o]) w) eq_refl Hrest).
    rewrite length_app in IH. cbn [length] in IH.
    replace (length seen + 1)%nat with (S (length seen)) in IH by lia.
    rewrite IH, set_Objects_set_Objects, add_calls_add_calls, <- app_assoc.
    unfold touch_timers. cbn [List.filter app List.map].
    by destruct (is_coin o).
Qed.

(** X9. Activating a document that has a proxy with an IFC file and at
    least one object, every object shown in mode "Coin" having a proxy
    object: each of those objects gets [Proxy.cached] set and a timer for
    its [touch], in document order; the other objects are left as they
    are; then the timers for the recompute of the document and for the
    view fit are armed, in that order; the ghost creator is not called. *)
Theorem slotActivateDocument_marks_coin
        (create_ghost_effect : Doc.t -> Doc.t) (doc : Doc.t) (w : World) (proxy : PyProxy) :
  Doc.Proxy doc = Some proxy →
  hasattr (proxy_dict proxy) "ifcfile" = true →
  Doc.Objects doc ≠ [] →
  (∀ o, o ∈ Doc.Objects doc → is_coin o = true →
        ∃ dict, Obj.Proxy o = Some (ProxyObj dict)) →
  slotActivateDocument create_ghost_effect (doc, w)
  = ((Doc.set_Objects (List.map mark_cached (Doc.Objects doc)) doc,
      add_calls (touch_timers (Doc.Objects doc)
                 ++ [singleShot 100 (cb_recompute (Doc.Name doc));
                     singleShot 100 cb_fit_all]) w), inr tt).
Proof.
  intros Hproxy Hfile Hobjs Hall.
  unfold slotActivateDocument, bind at 1, get_doc, gets. cbn beta iota. cbn [fst].
  rewrite Hproxy, Hfile.
  destruct (Doc.Objects doc) as [|o objs] eqn:Heq; [done|].
  pose proof (activate_loop (o :: objs) [] doc w Heq Hall) as Hloop.
  cbn [length app] in Hloop. unfold bind at 1. cbn [length]. rewrite Hloop.
  unfold bind, call_d, modify. cbn beta iota.
  unfold add_call, add_calls; simpl. by rewrite <- !app_assoc.
Qed.

Lemma slotActivateDocument_marks_coin_witness :
  let coin := Obj.mk "Slab" "Slab" ["Part::FeaturePython"]
                     {[ "ShapeMode" := PyStr "Coin" ]} (Some (ProxyObj ∅)) None (Some "Ifc") in
  let doc := Samples.ifc_doc false "IFC2X3" [Samples.element "Wall" 7; coin] in
  slotActivateDocument Samples.create_ghost_effect (doc, Samples.empty_world)
  = ((Doc.set_Objects
        [Samples.element "Wall" 7;
         Obj.set_Proxy (ProxyObj {[ "cached" := PyBool true ]}) coin] doc,
      add_calls [singleShot 100 (cb_touch "Slab");
                 singleShot 100 (cb_recompute "Ifc");
                 singleShot 100 cb_fit_all] Samples.empty_world), inr tt).
Proof.
  cbn zeta. etransitivity.
  - apply (slotActivateDocument_marks_coin Samples.create_ghost_effect
             (Samples.ifc_doc false "IFC2X3"
                [Samples.element "Wall" 7;
                 Obj.mk "Slab" "Slab" ["Part::FeaturePython"]
                        {[ "ShapeMode" := PyStr "Coin" ]} (Some (ProxyObj ∅)) None (Some "Ifc")])
             Samples.empty_world
             (ProxyObj {[ "ifcfile" := PyFile Samples.ifc2x3 ]})); try reflexivity.
    + discriminate.
    + intros o Ho. cbn in Ho.
      apply elem_of_cons in Ho as [->|Ho]; [discriminate|].
      apply list_elem_of_singleton in Ho as ->. intros _. by eexists.
  - reflexivity.
Defined.

Lemma for_app {S A} (xs ys : list A) (body : A -> M S unit) (s : S) :
  for_ (xs ++ ys) body s
  = match for_ xs body s with
    | (s', inr _) => for_ ys body s'
    | (s', inl e) => (s', inl e)
    end.
Proof.
  revert s. induction xs as [|x xs IH]; intros s; simpl; [done|].
  unfold bind. destruct (body x s) as [s' [e|[]]]; [done|]. apply IH.
Qed.

(** The loop of [slotActivateDocument] over a stretch of the objects that
    is followed by more objects. *)
Lemma activate_loop_stretch (rest seen tail : list Obj.t) (d : Doc.t) (w : World) :
  Doc.Objects d = seen ++ rest ++ tail →
  (∀ o, o ∈ rest → is_coin o = true → ∃ dict, Obj.Proxy o = Some (ProxyObj dict)) →
  for_ (seq (length seen) (length rest)) activate_object (d, w)
  = ((Doc.set_Objects (seen ++ List.map mark_cached rest ++ tail) d,
      add_calls (touch_timers rest) w), inr tt).
Proof.
  revert seen d w. induction rest as [|o rest IH]; intros seen d w Hobjs Hproxy.
  - simpl. rewrite add_calls_nil. simpl in Hobjs. rewrite <- Hobjs. by destruct d.
  - cbn [length seq for_]. unfold bind.
    assert (Hlook : Doc.Objects d !! length seen = Some o).
    { rewrite Hobjs. cbn [app]. by rewrite list_lookup_middle. }
    assert (Hrest : ∀ o', o' ∈ rest → is_coin o' = true →
                          ∃ dict, Obj.Proxy o' = Some (ProxyObj dict)).
    { intros o' Ho'. apply Hproxy. by right. }
    assert (Hstep : activate_object (length seen) (d, w)
              = ((Doc.set_Objects ((seen ++ [mark_cached o]) ++ rest ++ tail) d,
                  add_calls (touch_timers [o]) w), inr tt)).
    { unfold activate_object, bind, get_doc, gets. cbn beta iota. cbn [fst].
      rewrite Hlook. unfold touch_timers, mark_cached. cbn [List.filter].
      fold (is_coin o). destruct (is_coin o) eqn:Hcoin.
      - destruct (Hproxy o) as (dict & Hdict); [by left|done|].
        rewrite Hdict. cbn [mbind option_bind proxy_setattr].
        unfold modify_doc, call_d, modify. cbn beta iota. cbn [List.map].
        rewrite Hobjs.
        replace (length seen) with (length seen + 0)%nat at 1 by lia.
        rewrite alter_app_r. cbn [alter list_alter app].
        rewrite <- app_assoc. done.
      - cbn [List.map]. rewrite add_calls_nil, <- app_assoc. cbn [app].
        cbn [app] in Hobjs. rewrite <- Hobjs. by destruct d. }
    rewrite Hstep.
    specialize (IH (seen ++ [mark_cached o])
                   (Doc.set_Objects ((seen ++ [mark_cached o]) ++ rest ++ tail) d)
                   (add_calls (touch_timers [o]) w) eq_refl Hrest).
    rewrite length_app in IH. cbn [length] in IH.
    replace (length seen + 1)%nat with (S (length seen)) in IH by lia.
    rewrite IH, set_Objects_set_Objects, add_calls_add_calls, <- app_assoc.
    unfold touch_timers. cbn [List.filter app List.map].
    by destruct (is_coin o).
Qed.

(** X10. [slotActivateDocument] stops at the first object shown in mode
    "Coin" that has no proxy object: the objects before it are marked and
    their timers armed, the exception goes to the host, and the timers for
    the recompute of the document and for the view fit are never armed. *)
Theorem slotActivateDocument_stops_at_bare_coin
        (create_ghost_effect : Doc.t -> Doc.t) (doc : Doc.t) (w : World) (proxy : PyProxy)
        (before after : list Obj.t) (bare : Obj.t) :
  Doc.Proxy doc = Some proxy →
  hasattr (proxy_dict proxy) "ifcfile" = true →
  Doc.Objects doc = before ++ bare :: after →
  (∀ o, o ∈ before → is_coin o = true → ∃ dict, Obj.Proxy o = Some (ProxyObj dict)) →
  is_coin bare = true →
  Obj.Proxy bare ≫= proxy_setattr "cached" (PyBool true) = None →
  slotActivateDocument create_ghost_effect (doc, w)
  = ((Doc.set_Objects (List.map mark_cached before ++ bare :: after) doc,
      add_calls (touch_timers before) w), inl (AttributeError "Proxy")).
Proof.
  intros Hproxy Hfile Hobjs Hbefore Hcoin Hbare.
  unfold slotActivateDocument, bind at 1, get_doc, gets. cbn beta iota. cbn [fst].
  rewrite Hproxy, Hfile.
  destruct (Doc.Objects doc) as [|o objs] eqn:Heq.
  { by destruct before. }
  assert (Hall : Doc.Objects doc = before ++ bare :: after) by congruence.
  rewrite Hobjs, length_app, seq_app. unfold bind at 1.
  rewrite for_app. cbn [length seq Nat.add].
  pose proof (activate_loop_stretch before [] (bare :: after) doc w Hall Hbefore) as Hloop.
  cbn [length app] in Hloop. rewrite Hloop.
  cbn [for_]. unfold bind at 1.
  assert (Hstop : ∀ d' w',
            Doc.Objects d' = List.map mark_cached before ++ bare :: after →
            activate_object (length before) (d', w')
            = ((d', w'), inl (AttributeError "Proxy"))).
  { intros d' w' Hd'. unfold activate_object, bind, get_doc, gets.
    cbn beta iota. cbn [fst]. rewrite Hd'.
    replace (length before) with (length (List.map mark_cached before))
      by apply length_map.
    rewrite list_lookup_middle by done.
    unfold is_coin in Hcoin. by rewrite Hcoin, Hbare. }
  rewrite Hstop; done.
Qed.

Lemma slotActivateDocument_stops_at_bare_coin_witness :
  let doc := Samples.ifc_doc false "IFC2X3"
               [Samples.element "Wall" 7; Samples.coin_without_proxy; Samples.element "Roof" 8] in
  slotActivateDocument Samples.create_ghost_effect (doc, Samples.empty_world)
  = ((doc, Samples.empty_world), inl (AttributeError "Proxy")).
Proof.
  cbn zeta. etransitivity.
  - apply (slotActivateDocument_stops_at_bare_coin Samples.create_ghost_effect
             (Samples.ifc_doc false "IFC2X3"
                [Samples.element "Wall" 7; Samples.coin_without_proxy;
                 Samples.element "Roof" 8])
             Samples.empty_world
             (ProxyObj {[ "ifcfile" := PyFile Samples.ifc2x3 ]})
             [Samples.element "Wall" 7] [Samples.element "Roof" 8]
             Samples.coin_without_proxy); try reflexivity.
    intros o ->%list_elem_of_singleton. discriminate.
  - reflexivity.
Defined.

(** ** on_document_property_changed: what the renumbering keeps *)

Lemma has_StepId_present (old_id : Z) (o : Obj.t) :
  has_StepId old_id o → hasattr (Obj.Properties o) "StepId" = true.
Proof.
  unfold has_StepId, getattr, hasattr.
  by destruct (Obj.Properties o !! "StepId").
Qed.

Lemma has_StepId_inj (a b : Z) (o : Obj.t) :
  has_StepId a o → has_StepId b o → a = b.
Proof.
  unfold has_StepId.
  destruct (getattr (Obj.Properties o) "StepId" PyNone) as [|x|x| | |]; simpl; try done.
  - intros ?%Z.eqb_eq ?%Z.eqb_eq. congruence.
  - intros ?%Z.eqb_eq ?%Z.eqb_eq. congruence.
Qed.

Lemma has_StepId_setattr (a n : Z) (o : Obj.t) :
  has_StepId a (Obj.setattr "StepId" (PyInt n) o) ↔ a = n.
Proof.
  unfold has_StepId, getattr, Obj.setattr; simpl. rewrite lookup_insert_eq. simpl.
  rewrite Z.eqb_eq. split; congruence.
Qed.

Lemma same_but_StepId_refl (o : Obj.t) : same_but_StepId o o.
Proof. by repeat split. Qed.

Lemma same_but_StepId_trans (a b c : Obj.t) :
  same_but_StepId a b → same_but_StepId b c → same_but_StepId a c.
Proof.
  intros (?&?&?&?&?&?&Hab&?) (?&?&?&?&?&?&Hbc&?).
  repeat split; try congruence.
  intros key Hkey. by rewrite Hbc, Hab.
Qed.

Lemma same_but_StepId_setattr (old_id new_id : Z) (o : Obj.t) :
  has_StepId old_id o → same_but_StepId o (Obj.setattr "StepId" (PyInt new_id) o).
Proof.
  intros Ho. repeat split; try done.
  - intros key Hkey. simpl. by rewrite lookup_insert_ne.
  - rewrite (has_StepId_present old_id o Ho). unfold hasattr; simpl.
    by rewrite lookup_insert_eq.
Qed.

(** What one pair does, from the positions that match. *)
Lemma migrate_child_cases (objs : list Obj.t) (old_id new_id : Z) :
  (∃ i o, only_child_at old_id objs i ∧ objs !! i = Some o ∧ has_StepId old_id o
          ∧ migrate_child objs (old_id, new_id)
            = <[i := Obj.setattr "StepId" (PyInt new_id) o]> objs)
  ∨ ((¬ ∃ i, only_child_at old_id objs i)
     ∧ migrate_child objs (old_id, new_id) = objs).
Proof.
  pose proof (migrate_child_remap objs old_id new_id) as Hremap.
  remember (migrate_child objs (old_id, new_id)) as res eqn:Hres. clear Hres.
  destruct Hremap as [i o Hlook Ho Honly | Hzero | i j oi oj Hij Hi Hoi Hj Hoj].
  - left. exists i, o. split; [split|done].
    + by exists o.
    + intros j (o' & Hj & Ho'). by apply (Honly j o').
  - right. split; [|done]. intros (i & (o & Hi & Ho) & _). by apply (Hzero i o).
  - right. split; [|done]. intros (k & _ & Honly).
    apply Hij. rewrite (Honly i), (Honly j); [done|by exists oj|by exists oi].
Qed.

Lemma migrate_child_same (objs : list Obj.t) (item : Z * Z) :
  Forall2 same_but_StepId objs (migrate_child objs item).
Proof.
  destruct item as [old_id new_id].
  assert (Hrefl : Forall2 same_but_StepId objs objs).
  { apply Forall2_same_length_lookup. split; [done|].
    intros i x y Hx Hy. assert (x = y) as -> by congruence.
    apply same_but_StepId_refl. }
  destruct (migrate_child_cases objs old_id new_id)
    as [(i & o & _ & Hlook & Ho & ->)|[_ ->]]; [|done].
  apply Forall2_same_length_lookup. split; [by rewrite length_insert|].
  intros j x y Hx Hy. destruct (decide (i = j)) as [<-|Hne].
  - rewrite list_lookup_insert_eq in Hy by (by eapply lookup_lt_Some).
    assert (x = o) as -> by congruence. injection Hy as <-.
    by apply (same_but_StepId_setattr old_id).
  - rewrite list_lookup_insert_ne in Hy by done.
    assert (x = y) as -> by congruence. apply same_but_StepId_refl.
Qed.

Lemma Forall2_same_but_StepId_trans (a b c : list Obj.t) :
  Forall2 same_but_StepId a b → Forall2 same_but_StepId b c →
  Forall2 same_but_StepId a c.
Proof.
  intros Hab. revert c. induction Hab as [|x y a b Hxy Hab IH]; intros c Hbc.
  - by inversion Hbc.
  - inversion Hbc as [|? z ? c' Hyz Hbc']; subst. constructor.
    + by apply (same_but_StepId_trans x y z).
    + by apply IH.
Qed.

Lemma fold_migrate_child_same (table : list (Z * Z)) (objs : list Obj.t) :
  Forall2 same_but_StepId objs (fold_left migrate_child table objs).
Proof.
  revert objs. induction table as [|item table IH]; intros objs; simpl.
  - apply Forall2_same_length_lookup. split; [done|].
    intros i x y Hx Hy. assert (x = y) as -> by congruence.
    apply same_but_StepId_refl.
  - eapply Forall2_same_but_StepId_trans; [apply migrate_child_same | apply IH].
Qed.

Lemma migrate_child_untouched (objs : list Obj.t) (old_id new_id : Z) (i : nat) (o : Obj.t) :
  objs !! i = Some o → ¬ has_StepId old_id o →
  migrate_child objs (old_id, new_id) !! i = Some o.
Proof.
  intros Hi Hno.
  destruct (migrate_child_cases objs old_id new_id)
    as [(i0 & o0 & _ & Hlook & Ho0 & ->)|[_ ->]]; [|done].
  rewrite list_lookup_insert_ne; [done|]. intros ->. congruence.
Qed.

Lemma fold_migrate_child_untouched (table : list (Z * Z)) (objs : list Obj.t)
      (i : nat) (o : Obj.t) :
  objs !! i = Some o →
  (∀ old_id new_id, (old_id, new_id) ∈ table → ¬ has_StepId old_id o) →
  fold_left migrate_child table objs !! i = Some o.
Proof.
  revert objs. induction table as [|[a b] table IH]; intros objs Hi Hno; simpl; [done|].
  apply IH.
  - apply migrate_child_untouched; [done|]. apply (Hno a b). by left.
  - intros old_id new_id Hin. apply (Hno old_id new_id). by right.
Qed.

(** A pair that neither looks for [old_id] nor hands it out leaves the
    positions of the children at [old_id] as they are. *)
Lemma migrate_child_child_at (objs : list Obj.t) (a b old_id : Z) (j : nat) :
  a ≠ old_id → b ≠ old_id →
  child_at old_id (migrate_child objs (a, b)) j ↔ child_at old_id objs j.
Proof.
  intros Ha Hb.
  destruct (migrate_child_cases objs a b)
    as [(i0 & o0 & _ & Hlook & Ho0 & ->)|[_ ->]]; [|done].
  unfold child_at. destruct (decide (i0 = j)) as [<-|Hne].
  - rewrite list_lookup_insert_eq by (by eapply lookup_lt_Some). split.
    + intros (o & [= <-] & Ho). apply has_StepId_setattr in Ho. congruence.
    + intros (o & Ho & Hold). assert (o = o0) as -> by congruence.
      exfalso. apply Ha. by apply (has_StepId_inj a old_id o0).
  - by rewrite list_lookup_insert_ne.
Qed.

Lemma fold_migrate_child_child_at (table : list (Z * Z)) (objs : list Obj.t)
      (old_id : Z) (j : nat) :
  (∀ a b, (a, b) ∈ table → a ≠ old_id ∧ b ≠ old_id) →
  child_at old_id (fold_left migrate_child table objs) j ↔ child_at old_id objs j.
Proof.
  revert objs. induction table as [|[a b] table IH]; intros objs Hother; simpl; [done|].
  rewrite IH.
  - destruct (Hother a b) as [Ha Hb]; [by left|]. by apply migrate_child_child_at.
  - intros a' b' Hin. apply Hother. by right.
Qed.

(** The renumbering when no new identifier is also an old one. *)
Lemma fold_migrate_child_simultaneous (table : list (Z * Z)) (objs : list Obj.t)
      (old_id new_id : Z) (i : nat) (o : Obj.t) :
  NoDup table.*1 →
  (∀ a b a' b', (a, b) ∈ table → (a', b') ∈ table → b ≠ a') →
  (old_id, new_id) ∈ table →
  objs !! i = Some o →
  has_StepId old_id o →
  (only_child_at old_id objs i →
   fold_left migrate_child table objs !! i
   = Some (Obj.setattr "StepId" (PyInt new_id) o))
  ∧ (¬ only_child_at old_id objs i →
     fold_left migrate_child table objs !! i = Some o).
Proof.
  intros Hkeys Hchain Hin Hi Ho.
  apply list_elem_of_split in Hin as (pre & post & ->).
  rewrite fmap_app, fmap_cons in Hkeys. cbn [fst] in Hkeys.
  apply NoDup_app in Hkeys as (_ & Hpre & Hpost).
  apply NoDup_cons in Hpost as [Hpost _].
  assert (Hpre' : ∀ a b, (a, b) ∈ pre → a ≠ old_id ∧ b ≠ old_id).
  { intros a b Hab. split.
    - intros ->. apply (Hpre old_id); [|by left].
      apply list_elem_of_fmap. by exists (old_id, b).
    - apply (Hchain a b old_id new_id); apply elem_of_app; [by left|right; by left]. }
  assert (Hpost' : ∀ a b, (a, b) ∈ post → a ≠ old_id ∧ a ≠ new_id).
  { intros a b Hab. split.
    - intros ->. apply Hpost. apply list_elem_of_fmap. by exists (old_id, b).
    - intros ->.
      apply (Hchain old_id new_id new_id b); [| |done]; apply elem_of_app; right;
        [by left|by right]. }
  rewrite fold_left_app. cbn [fold_left].
  set (objs1 := fold_left migrate_child pre objs).
  assert (Hi1 : objs1 !! i = Some o).
  { apply fold_migrate_child_untouched; [done|].
    intros a b Hab Ha. destruct (Hpre' a b Hab) as [Hne _].
    apply Hne. by apply (has_StepId_inj a old_id o). }
  assert (Honly1 : only_child_at old_id objs1 i ↔ only_child_at old_id objs i).
  { unfold only_child_at, objs1.
    split; intros [Hc Hu]; split;
      try (by apply (fold_migrate_child_child_at pre objs old_id i Hpre'));
      intros j Hj; apply Hu;
      by apply (fold_migrate_child_child_at pre objs old_id j Hpre'). }
  destruct (migrate_child_cases objs1 old_id new_id)
    as [(i0 & o0 & Honly0 & Hlook0 & Ho0 & ->)|[Hnone ->]].
  - assert (i = i0) as <-.
    { apply Honly0. by exists o. }
    assert (o0 = o) as -> by congruence.
    split.
    + intros _. apply fold_migrate_child_untouched.
      * apply list_lookup_insert_eq. by eapply lookup_lt_Some.
      * intros a b Hab Ha. apply has_StepId_setattr in Ha.
        destruct (Hpost' a b Hab) as [_ Hne]. done.
    + intros Hnot. exfalso. apply Hnot. by apply Honly1.
  - split.
    + intros Honly. exfalso. apply Hnone. exists i. by apply Honly1.
    + intros _. apply fold_migrate_child_untouched; [done|].
      intros a b Hab Ha. destruct (Hpost' a b Hab) as [Hne _].
      apply Hne. by apply (has_StepId_inj a old_id o).
Qed.

(** The children after a migration that went through. *)
Lemma slotChangedDocument_children
      (get_ifcfile : Doc.t -> option IfcFile)
      (migrate_schema_result : IfcFile -> PyVal -> IfcFile * list (Z * Z))
      (doc : Doc.t) (w : World) (schema : PyVal) (f : IfcFile) (dict : PyDict) :
  hasattr (Doc.Properties doc) "IfcFilePath" = true →
  Doc.Properties doc !! "Schema" = Some schema →
  get_ifcfile doc = Some f →
  py_eq schema (PyStr (schema_name f)) = false →
  Doc.Proxy doc = Some (ProxyObj dict) →
  (slotChangedDocument get_ifcfile migrate_schema_result "Schema" (doc, w)).2 = inr tt
  ∧ Doc.Objects (slotChangedDocument get_ifcfile migrate_schema_result "Schema" (doc, w)).1.1
    = fold_left migrate_child (migrate_schema_result f schema).2 (Doc.Objects doc).
Proof.
  intros Hpath Hschema Hfile Hdiff Hproxy.
  rewrite slotChangedDocument_run. cbn [String.eqb Ascii.eqb Bool.eqb andb].
  by rewrite Hpath, Hschema, Hfile, Hdiff, Hproxy.
Qed.

(** The children after any run of the slot: renumbered along some table,
    the empty one when nothing was migrated. *)
Lemma slotChangedDocument_children_any
      (get_ifcfile : Doc.t -> option IfcFile)
      (migrate_schema_result : IfcFile -> PyVal -> IfcFile * list (Z * Z))
      (prop : string) (doc : Doc.t) (w : World) :
  let d' := (slotChangedDocument get_ifcfile migrate_schema_result prop (doc, w)).1.1 in
  (Doc.Name d' = Doc.Name doc
   ∧ Doc.Properties d' = Doc.Properties doc
   ∧ Doc.ViewObject d' = Doc.ViewObject doc)
  ∧ (Doc.Objects d' = Doc.Objects doc
     ∨ ∃ f schema, get_ifcfile doc = Some f
                   ∧ Doc.Properties doc !! "Schema" = Some schema
                   ∧ Doc.Objects d'
                     = fold_left migrate_child (migrate_schema_result f schema).2
                                 (Doc.Objects doc)).
Proof.
  cbn zeta. rewrite slotChangedDocument_run.
  destruct (String.eqb prop "Schema" && _); [|by split; [|left]].
  destruct (Doc.Properties doc !! "Schema") as [schema|] eqn:Hschema; [|by split; [|left]].
  destruct (get_ifcfile doc) as [f|] eqn:Hfile; [|by split; [|left]].
  destruct (py_eq schema _); [by split; [|left]|].
  cbn zeta. destruct (Doc.Proxy doc ≫= _); [|by split; [|left]].
  split; [done|]. right. by exists f, schema.
Qed.

(** X11. Whatever [slotChangedDocument] does, the document keeps its
    name, its properties and its objects in their order, and every object
    keeps everything but the value of its [StepId]: no object gains or
    loses the property. *)
Theorem slotChangedDocument_keeps_children
        (get_ifcfile : Doc.t -> option IfcFile)
        (migrate_schema_result : IfcFile -> PyVal -> IfcFile * list (Z * Z))
        (prop : string) (doc : Doc.t) (w : World) :
  let d' := (slotChangedDocument get_ifcfile migrate_schema_result prop (doc, w)).1.1 in
  Doc.Name d' = Doc.Name doc
  ∧ Doc.Properties d' = Doc.Properties doc
  ∧ length (Doc.Objects d') = length (Doc.Objects doc)
  ∧ Forall2 same_but_StepId (Doc.Objects doc) (Doc.Objects d').
Proof.
  cbn zeta.
  destruct (slotChangedDocument_children_any get_ifcfile migrate_schema_result prop doc w)
    as [(Hname & Hprops & _) Hobjs].
  assert (Hsame : Forall2 same_but_StepId (Doc.Objects doc)
            (Doc.Objects (slotChangedDocument get_ifcfile migrate_schema_result
                                              prop (doc, w)).1.1)).
  { destruct Hobjs as [->|(f & schema & _ & _ & ->)].
    - apply (fold_migrate_child_same []).
    - apply fold_migrate_child_same. }
  repeat apply conj; try done.
  symmetry. by eapply Forall2_length.
Qed.

(** X12. A child whose identifier is none of the old identifiers of the
    migration table, and so every child without a [StepId], comes out of
    [slotChangedDocument] exactly as it went in. *)
Theorem slotChangedDocument_leaves_unmatched
        (get_ifcfile : Doc.t -> option IfcFile)
        (migrate_schema_result : IfcFile -> PyVal -> IfcFile * list (Z * Z))
        (prop : string) (doc : Doc.t) (w : World) (i : nat) (o : Obj.t) :
  Doc.Objects doc !! i = Some o →
  (∀ f schema old_id new_id,
     get_ifcfile doc = Some f →
     Doc.Properties doc !! "Schema" = Some schema →
     (old_id, new_id) ∈ (migrate_schema_result f schema).2 →
     ¬ has_StepId old_id o) →
  Doc.Objects (slotChangedDocument get_ifcfile migrate_schema_result prop (doc, w)).1.1 !! i
  = Some o.
Proof.
  intros Hi Hno.
  destruct (slotChangedDocument_children_any get_ifcfile migrate_schema_result prop doc w)
    as [_ [->|(f & schema & Hfile & Hschema & ->)]]; [done|].
  apply fold_migrate_child_untouched; [done|].
  intros old_id new_id Hin. by apply (Hno f schema old_id new_id).
Qed.

Lemma slotChangedDocument_leaves_unmatched_witness :
  let doc := Samples.ifc_doc true "IFC4" [Samples.element "A" 10; Samples.wall] in
  Doc.Objects (slotChangedDocument Samples.get_ifcfile Samples.migrate_schema_result
                                   "Schema" (doc, Samples.empty_world)).1.1 !! 1%nat
  = Some Samples.wall.
Proof.
  cbn zeta.
  apply (slotChangedDocument_leaves_unmatched
           Samples.get_ifcfile Samples.migrate_schema_result "Schema"
           (Samples.ifc_doc true "IFC4" [Samples.element "A" 10; Samples.wall])
           Samples.empty_world 1 Samples.wall); [reflexivity|].
  intros f schema old_id new_id _ _ _. discriminate.
Defined.

(** X13. When the old identifiers of the migration table are distinct
    and no new identifier is also an old one, the order of the pairs does
    not matter: a child whose identifier is an old one gets the new one of
    its pair when it was the only child with that identifier before the
    migration, and keeps its identifier when it shared it. *)
Theorem slotChangedDocument_remaps_simultaneously
        (get_ifcfile : Doc.t -> option IfcFile)
        (migrate_schema_result : IfcFile -> PyVal -> IfcFile * list (Z * Z))
        (doc : Doc.t) (w : World) (schema : PyVal) (f : IfcFile) (dict : PyDict)
        (old_id new_id : Z) (i : nat) (o : Obj.t) :
  hasattr (Doc.Properties doc) "IfcFilePath" = true →
  Doc.Properties doc !! "Schema" = Some schema →
  get_ifcfile doc = Some f →
  py_eq schema (PyStr (schema_name f)) = false →
  Doc.Proxy doc = Some (ProxyObj dict) →
  NoDup (migrate_schema_result f schema).2.*1 →
  (∀ a b a' b', (a, b) ∈ (migrate_schema_result f schema).2 →
                (a', b') ∈ (migrate_schema_result f schema).2 → b ≠ a') →
  (old_id, new_id) ∈ (migrate_schema_result f schema).2 →
  Doc.Objects doc !! i = Some o →
  has_StepId old_id o →
  let d' := (slotChangedDocument get_ifcfile migrate_schema_result "Schema" (doc, w)).1.1 in
  (only_child_at old_id (Doc.Objects doc) i →
   Doc.Objects d' !! i = Some (Obj.setattr "StepId" (PyInt new_id) o))
  ∧ (¬ only_child_at old_id (Doc.Objects doc) i → Doc.Objects d' !! i = Some o).
Proof.
  intros Hpath Hschema Hfile Hdiff Hproxy Hkeys Hchain Hin Hi Ho. cbn zeta.
  destruct (slotChangedDocument_children get_ifcfile migrate_schema_result
              doc w schema f dict Hpath Hschema Hfile Hdiff Hproxy) as [_ ->].
  by apply fold_migrate_child_simultaneous.
Qed.

Lemma slotChangedDocument_remaps_simultaneously_witness :
  let doc := Samples.ifc_doc true "IFC4" [Samples.element "A" 10; Samples.element "B" 11] in
  let d' := (slotChangedDocument Samples.get_ifcfile Samples.migrate_schema_result
                                 "Schema" (doc, Samples.empty_world)).1.1 in
  (only_child_at 11 (Doc.Objects doc) 1 →
   Doc.Objects d' !! 1%nat
   = Some (Obj.setattr "StepId" (PyInt 21) (Samples.element "B" 11)))
  ∧ (¬ only_child_at 11 (Doc.Objects doc) 1 →
     Doc.Objects d' !! 1%nat = Some (Samples.element "B" 11)).
Proof.
  cbn zeta.
  apply (slotChangedDocument_remaps_simultaneously
           Samples.get_ifcfile Samples.migrate_schema_result
           (Samples.ifc_doc true "IFC4" [Samples.element "A" 10; Samples.element "B" 11])
           Samples.empty_world (PyStr "IFC4") Samples.ifc2x3
           {[ "ifcfile" := PyFile Samples.ifc2x3 ]} 11 21 1 (Samples.element "B" 11));
    try reflexivity.
  - cbn. apply NoDup_cons. split; [|apply NoDup_singleton].
    intros Hin%list_elem_of_singleton. discriminate.
  - cbn. intros a b a' b' Hab Hab'.
    apply elem_of_cons in Hab as [[= -> ->]|Hab%list_elem_of_singleton];
      apply elem_of_cons in Hab' as [[= -> ->]|Hab'%list_elem_of_singleton];
      try injection Hab as -> ->; try injection Hab' as -> ->; discriminate.
  - cbn. right. by left.
Defined.

(** X14. When the schema of a document without a proxy object is
    changed, the migration of the file is still called, and then the slot
    raises: the new file handle is stored nowhere and no child is
    renumbered, the document is left as it was. *)
Theorem slotChangedDocument_without_proxy
        (get_ifcfile : Doc.t -> option IfcFile)
        (migrate_schema_result : IfcFile -> PyVal -> IfcFile * list (Z * Z))
        (doc : Doc.t) (w : World) (schema : PyVal) (f : IfcFile) :
  hasattr (Doc.Properties doc) "IfcFilePath" = true →
  Doc.Properties doc !! "Schema" = Some schema →
  get_ifcfile doc = Some f →
  py_eq schema (PyStr (schema_name f)) = false →
  Doc.Proxy doc = None ∨ Doc.Proxy doc = Some NoneProxy →
  slotChangedDocument get_ifcfile migrate_schema_result "Schema" (doc, w)
  = ((doc, add_call (migrate_schema f schema) w), inl (AttributeError "Proxy")).
Proof.
  intros Hpath Hschema Hfile Hdiff Hproxy.
  rewrite slotChangedDocument_run. cbn [String.eqb Ascii.eqb Bool.eqb andb].
  rewrite Hpath, Hschema, Hfile, Hdiff. cbn zeta.
  by destruct Hproxy as [-> | ->].
Qed.

Lemma slotChangedDocument_without_proxy_witness :
  let bare := Doc.mk "Ifc" {[ "IfcFilePath" := PyStr "/tmp/a.ifc"; "Schema" := PyStr "IFC4" ]}
                     None None [Samples.element "A" 10] in
  slotChangedDocument Samples.get_ifcfile Samples.migrate_schema_result
                      "Schema" (bare, Samples.empty_world)
  = ((bare, add_call (migrate_schema Samples.ifc2x3 (PyStr "IFC4")) Samples.empty_world),
     inl (AttributeError "Proxy")).
Proof.
  cbn zeta.
  apply (slotChangedDocument_without_proxy
           Samples.get_ifcfile Samples.migrate_schema_result
           (Doc.mk "Ifc" {[ "IfcFilePath" := PyStr "/tmp/a.ifc"; "Schema" := PyStr "IFC4" ]}
                   None None [Samples.element "A" 10])
           Samples.empty_world (PyStr "IFC4") Samples.ifc2x3); try reflexivity.
  by left.
Defined.

(** ** From the creation of an object to its conversion *)

(** X15. An object created in a registered IFC document, found in that
    document under its name, without a [StepId]: the slot arms one timer,
    and when [convert] fires it hands the object over once if it is a
    [Part::Feature] with an [IfcType], calls nothing otherwise, and in both
    cases leaves no pending name behind. *)
Theorem created_object_is_converted (obj : Obj.t) (doc : Doc.t) (w : World) :
  obj_Document w obj = Some doc →
  hasattr (Doc.Properties doc) "IfcFilePath" = true →
  listDocuments w !! Doc.Name doc = Some doc →
  Doc.getObject (Obj.Name obj) doc = Some obj →
  hasattr (Obj.Properties obj) "StepId" = false →
  let w1 := (slotCreatedObject obj w).1 in
  let r := convert w1 in
  r.2 = inr tt
  ∧ self r.1 = ifc_observer
  ∧ new_calls w r.1
    = singleShot 100 cb_convert
      :: (if convertible obj then conversion_calls obj doc else []).
Proof.
  intros Hdoc Hmark Hreg Hobj Hstep. cbn zeta.
  rewrite (slotCreatedObject_run obj w doc) by done. cbn [fst].
  rewrite convert_run. cbn [self set_self add_call objname docname listDocuments].
  rewrite Hreg, Hobj, Hstep. cbn [fst snd].
  repeat apply conj; [done|done|].
  unfold new_calls; simpl. by rewrite <- app_assoc, new_calls_app.
Qed.

Lemma created_object_is_converted_witness :
  let doc := Samples.ifc_doc false "IFC2X3" [Samples.ifc_wall] in
  let w := Samples.world ifc_observer [doc] true in
  let r := convert (slotCreatedObject Samples.ifc_wall w).1 in
  r.2 = inr tt
  ∧ self r.1 = ifc_observer
  ∧ new_calls w r.1 = singleShot 100 cb_convert :: conversion_calls Samples.ifc_wall doc.
Proof.
  cbn zeta.
  exact (created_object_is_converted
           Samples.ifc_wall
           (Samples.ifc_doc false "IFC2X3" [Samples.ifc_wall])
           (Samples.world ifc_observer [Samples.ifc_doc false "IFC2X3" [Samples.ifc_wall]] true)
           eq_refl eq_refl eq_refl eq_refl eq_refl).
Defined.

(** X16. A save that starts between the creation of an object and its
    [convert] redirects the conversion: [convert] looks the object name up
    in the document being saved.  When that document holds an object of
    that name without a [StepId], it is this object that is handed over,
    in the saved document; when it holds none, [convert] does nothing and
    both names stay pending. *)
Theorem save_start_redirects_convert
        (obj : Obj.t) (doc saved target : Doc.t) (value : PyVal) (w : World) :
  obj_Document w obj = Some doc →
  hasattr (Doc.Properties doc) "IfcFilePath" = true →
  listDocuments w !! Doc.Name saved = Some target →
  let w2 := (slotStartSaveDocument saved value (slotCreatedObject obj w).1).1 in
  self w2 = mkObserver (Some (Doc.Name saved)) (Some (Obj.Name obj))
  ∧ (∀ other, Doc.getObject (Obj.Name obj) target = Some other →
              hasattr (Obj.Properties other) "StepId" = false →
              convert w2
              = (add_calls (if convertible other then conversion_calls other target else [])
                           (set_self ifc_observer w2), inr tt))
  ∧ (Doc.getObject (Obj.Name obj) target = None → convert w2 = (w2, inr tt)).
Proof.
  intros Hdoc Hmark Htarget. cbn zeta.
  rewrite (slotCreatedObject_run obj w doc) by done. cbn [fst].
  rewrite slotStartSaveDocument_run. cbn [fst].
  repeat apply conj.
  - done.
  - intros other Hother Hstep. rewrite convert_run.
    cbn [self set_self add_call objname docname listDocuments].
    by rewrite Htarget, Hother, Hstep.
  - intros Hnone. rewrite convert_run.
    cbn [self set_self add_call objname docname listDocuments].
    by rewrite Htarget, Hnone.
Qed.

Lemma save_start_redirects_convert_witness :
  let ifc := Samples.ifc_doc false "IFC2X3" [Samples.element "Wall" 7] in
  let w := Samples.world ifc_observer [ifc; Samples.plain_doc] true in
  let w2 := (slotStartSaveDocument Samples.plain_doc PyNone
               (slotCreatedObject (Samples.element "Wall" 7) w).1).1 in
  self w2 = mkObserver (Some "Plain") (Some "Wall")
  ∧ convert w2
    = (add_calls (conversion_calls Samples.wall Samples.plain_doc)
                 (set_self ifc_observer w2), inr tt).
Proof.
  cbn zeta.
  destruct (save_start_redirects_convert
              (Samples.element "Wall" 7)
              (Samples.ifc_doc false "IFC2X3" [Samples.element "Wall" 7])
              Samples.plain_doc Samples.plain_doc PyNone
              (Samples.world ifc_observer
                 [Samples.ifc_doc false "IFC2X3" [Samples.element "Wall" 7];
                  Samples.plain_doc] true)
              eq_refl eq_refl eq_refl) as (Hself & Hconv & _).
  split; [exact Hself|].
  exact (Hconv Samples.wall eq_refl eq_refl).
Defined.
